(** * core-js-dates: calendar utilities over the JavaScript [Date] primitive

    Shallow embedding of [src/core-js-dates-tasks.js].  The functions of the
    source are thin computations over the platform's [Date] object, so the
    development has two layers:

    - [EcmaDate]: the abstract operations of ECMA-262 (clause "Date Objects")
      that the source calls through [new Date(..)], [getDay], [setMonth], ...
      A time value is an integer number of milliseconds since the epoch, or
      NaN; it is modelled as [option Z] with [None] for NaN.
    - the functions of the source file, under their own names.

    The local time zone is a fixed offset [tza] (milliseconds east of UTC),
    an explicit argument of everything that reads local fields.  ECMA-262
    lets the offset depend on the instant (daylight saving); a statement
    that relates the local fields of two instants is therefore a statement
    about zones, or stretches of time, in which the offset does not change,
    and says so.  A function that reads the local fields of one instant only
    is covered for every zone, with [tza] the offset at that instant.

    A Number that may be fractional is modelled by the rational that the
    source's expression denotes.  The double that the engine computes is the
    rounding of that rational, and is that rational whenever every
    intermediate value is one that a double holds exactly (as for time values
    a whole number of days apart); statements about such results are
    restricted to what rounding cannot change. *)

From Stdlib Require Import ZArith List Bool Lia String Ascii QArith Qround.
From Stdlib Require Import DecimalString.
Import ListNotations.

Open Scope Z_scope.

(** ** JavaScript numbers, as far as the source uses them *)

(** An integral Number, or NaN. *)
Definition number := option Z.

Definition NaN : number := None.

(** Arithmetic propagates NaN. *)
Definition num_lift2 (f : Z -> Z -> Z) (a b : number) : number :=
  match a, b with
  | Some x, Some y => Some (f x y)
  | _, _ => None
  end.

(** Comparisons with NaN are false. *)
Definition num_test2 (f : Z -> Z -> bool) (a b : number) : bool :=
  match a, b with
  | Some x, Some y => f x y
  | _, _ => false
  end.

Definition num_add := num_lift2 Z.add.
Definition num_sub := num_lift2 Z.sub.
Definition num_mul := num_lift2 Z.mul.
Definition num_seq := num_test2 Z.eqb.   (* === *)
Definition num_lt  := num_test2 Z.ltb.   (* <   *)
Definition num_le  := num_test2 Z.leb.   (* <=  *)
Definition num_gt  := num_test2 Z.gtb.   (* >   *)
Definition num_ge  := num_test2 Z.geb.   (* >=  *)

(** How a call of the source ends: with a value, or with an exception that
    reaches the caller. *)
Inductive exn : Type :=
| ParseError
| InvalidArgument
| OtherError.

Inductive outcome (A : Type) : Type :=
| Returned (a : A)
| Thrown (e : exn).

Arguments Returned {A} a.
Arguments Thrown {A} e.

Definition raises {A : Type} (o : outcome A) (e : exn) : Prop := o = Thrown e.

(** ** The Date abstract operations of ECMA-262 *)

Module EcmaDate.

Definition msPerDay : Z := 86400000.
Definition msPerHour : Z := 3600000.
Definition msPerMinute : Z := 60000.
Definition msPerSecond : Z := 1000.
Definition maxTime : Z := 8640000000000000.

Definition Day (t : Z) : Z := t / msPerDay.
Definition TimeWithinDay (t : Z) : Z := t mod msPerDay.

Definition DaysInYear (y : Z) : Z :=
  if negb (y mod 4 =? 0) then 365
  else if negb (y mod 100 =? 0) then 366
  else if negb (y mod 400 =? 0) then 365
  else 366.

Definition DayFromYear (y : Z) : Z :=
  365 * (y - 1970) + (y - 1969) / 4 - (y - 1901) / 100 + (y - 1601) / 400.

Definition TimeFromYear (y : Z) : Z := msPerDay * DayFromYear y.

(** ECMA-262 defines [YearFromTime t] as the largest [y] with
    [TimeFromYear y <= t].  [YearFromDay] computes it from the mean length of
    the Gregorian year (146097 days in 400 years) and one correction step;
    [YearFromDay_bounds] and [YearFromDay_unique] below show that this is the
    year of the definition. *)
Definition YearFromDay (d : Z) : Z :=
  let y := 1970 + (400 * d) / 146097 in
  if d <? DayFromYear y then y - 1
  else if DayFromYear (y + 1) <=? d then y + 1
  else y.

Definition YearFromTime (t : Z) : Z := YearFromDay (Day t).

Definition InLeapYear (t : Z) : Z :=
  if DaysInYear (YearFromTime t) =? 366 then 1 else 0.

Definition DayWithinYear (t : Z) : Z := Day t - DayFromYear (YearFromTime t).

Definition MonthFromTime (t : Z) : Z :=
  let d := DayWithinYear t in
  let l := InLeapYear t in
  if d <? 31 then 0
  else if d <? 59 + l then 1
  else if d <? 90 + l then 2
  else if d <? 120 + l then 3
  else if d <? 151 + l then 4
  else if d <? 181 + l then 5
  else if d <? 212 + l then 6
  else if d <? 243 + l then 7
  else if d <? 273 + l then 8
  else if d <? 304 + l then 9
  else if d <? 334 + l then 10
  else 11.

Definition DateFromTime (t : Z) : Z :=
  let d := DayWithinYear t in
  let l := InLeapYear t in
  match MonthFromTime t with
  | 0 => d + 1
  | 1 => d - 30
  | 2 => d - 58 - l
  | 3 => d - 89 - l
  | 4 => d - 119 - l
  | 5 => d - 150 - l
  | 6 => d - 180 - l
  | 7 => d - 211 - l
  | 8 => d - 242 - l
  | 9 => d - 272 - l
  | 10 => d - 303 - l
  | _ => d - 333 - l
  end.

Definition WeekDay (t : Z) : Z := (Day t + 4) mod 7.

Definition HourFromTime (t : Z) : Z := (t / msPerHour) mod 24.
Definition MinFromTime (t : Z) : Z := (t / msPerMinute) mod 60.
Definition SecFromTime (t : Z) : Z := (t / msPerSecond) mod 60.

Definition MakeTime (hour min sec ms : Z) : Z :=
  hour * msPerHour + min * msPerMinute + sec * msPerSecond + ms.

(** Number of days of the year before month [mn] (0..11). *)
Definition DaysBeforeMonth (leap : Z) (mn : Z) : Z :=
  match mn with
  | 0 => 0
  | 1 => 31
  | 2 => 59 + leap
  | 3 => 90 + leap
  | 4 => 120 + leap
  | 5 => 151 + leap
  | 6 => 181 + leap
  | 7 => 212 + leap
  | 8 => 243 + leap
  | 9 => 273 + leap
  | 10 => 304 + leap
  | _ => 334 + leap
  end.

(** [MakeDay]: the day number of the first of month [mn] of year [ym], plus
    [date - 1]. *)
Definition MakeDay (year month date : Z) : Z :=
  let ym := year + month / 12 in
  let mn := month mod 12 in
  let leap := if DaysInYear ym =? 366 then 1 else 0 in
  DayFromYear ym + DaysBeforeMonth leap mn + date - 1.

Definition MakeDate (day time : Z) : Z := day * msPerDay + time.

Definition TimeClip (time : Z) : number :=
  if maxTime <? Z.abs time then NaN else Some time.

(** Length of month [mn] (0..11) of year [y]. *)
Definition DaysInMonth (y mn : Z) : Z :=
  match mn with
  | 1 => if DaysInYear y =? 366 then 29 else 28
  | 3 | 5 | 8 | 10 => 30
  | _ => 31
  end.

Section LocalZone.

(** Offset of the local time zone from UTC, in milliseconds: one offset for
    all instants (ECMA-262's LocalTZA, without daylight-saving changes). *)
Variable tza : Z.

Definition LocalTime (t : Z) : Z := t + tza.
Definition UTC (t : Z) : Z := t - tza.

(** [new Date(year, month, date)]: years 0..99 mean 1900..1999. *)
Definition fullYear (y : Z) : Z :=
  if (0 <=? y) && (y <=? 99) then 1900 + y else y.

Definition DateYMD (year month date : number) : number :=
  match year, month, date with
  | Some y, Some m, Some dt =>
      TimeClip (UTC (MakeDate (MakeDay (fullYear y) m dt) (MakeTime 0 0 0 0)))
  | _, _, _ => NaN
  end.

(** [new Date(year, month)] *)
Definition DateYM (year month : number) : number :=
  DateYMD year month (Some 1).

(** [new Date(value)] for a Number [value]. *)
Definition DateOfValue (value : number) : number :=
  match value with
  | Some v => TimeClip v
  | None => NaN
  end.

Definition getTime (d : number) : number := d.
Definition valueOf (d : number) : number := d.

Definition local_field (f : Z -> Z) (d : number) : number :=
  option_map (fun t => f (LocalTime t)) d.

Definition getFullYear := local_field YearFromTime.
Definition getMonth := local_field MonthFromTime.
Definition getDate := local_field DateFromTime.
Definition getDay := local_field WeekDay.
Definition getHours := local_field HourFromTime.
Definition getMinutes := local_field MinFromTime.
Definition getSeconds := local_field SecFromTime.

Definition getUTCFullYear : number -> number := option_map YearFromTime.
Definition getUTCMonth : number -> number := option_map MonthFromTime.
Definition getUTCDate : number -> number := option_map DateFromTime.
Definition getUTCDay : number -> number := option_map WeekDay.
Definition getUTCHours : number -> number := option_map HourFromTime.

(** [d.setDate(date)]: the new time value of [d] (also the call's result). *)
Definition setDate (d : number) (date : number) : number :=
  match d, date with
  | Some tv, Some dt =>
      let t := LocalTime tv in
      TimeClip (UTC (MakeDate (MakeDay (YearFromTime t) (MonthFromTime t) dt)
                              (TimeWithinDay t)))
  | _, _ => NaN
  end.

(** [d.setMonth(month)]: the new time value of [d]. *)
Definition setMonth (d : number) (month : number) : number :=
  match d, month with
  | Some tv, Some m =>
      let t := LocalTime tv in
      TimeClip (UTC (MakeDate (MakeDay (YearFromTime t) m (DateFromTime t))
                              (TimeWithinDay t)))
  | _, _ => NaN
  end.

End LocalZone.

End EcmaDate.

Import EcmaDate.

(** ** Strings: the conversions and the parsing the source relies on *)

Open Scope string_scope.
Open Scope Z_scope.

(** [ToString] of a Number, as a template literal applies it. *)
Definition numToString (n : number) : string :=
  match n with
  | Some z => NilZero.string_of_int (Z.to_int z)
  | None => "NaN"
  end.

Definition digit_of (c : ascii) : option Z :=
  let n := Z.of_nat (nat_of_ascii c) in
  if (48 <=? n) && (n <=? 57) then Some (n - 48) else None.

Fixpoint digits_value (acc : Z) (s : string) : number :=
  match s with
  | EmptyString => Some acc
  | String c r =>
      match digit_of c with
      | Some d => digits_value (10 * acc + d) r
      | None => NaN
      end
  end.

(** [ToNumber] of a value that is a string or [undefined] ([None]).  The
    string case covers the empty string and unsigned decimal digit strings,
    which is what the fields of a [DD-MM-YYYY] text are; every other string is
    NaN here (the platform also accepts signs, blanks, fractions, exponents
    and radix prefixes). *)
Definition ToNumber (v : option string) : number :=
  match v with
  | None => NaN
  | Some s => digits_value 0 s
  end.

(** [s.split(sep)] for a one-character separator. *)
Fixpoint split_on (sep : ascii) (cur : string) (s : string) : list string :=
  match s with
  | EmptyString => [cur]
  | String c r =>
      if Ascii.eqb c sep then cur :: split_on sep EmptyString r
      else split_on sep (cur ++ String c EmptyString) r
  end.

Definition split (sep : ascii) (s : string) : list string :=
  split_on sep EmptyString s.

(** [a[i]]: [undefined] past the end. *)
Definition index (a : list string) (i : nat) : option string := nth_error a i.

(** *** [Date.parse] on the ECMA-262 date-time string format

    [YYYY[-MM[-DD]][THH:mm[:ss[.sss]][Z|+HH:mm|-HH:mm]]].  A text of another
    shape is NaN here; engines may accept more (the fallback is
    implementation-defined), which is why the functions of the source that
    parse take the parser as an argument. *)
Module IsoParse.

Definition bind {A B : Type} (o : option A) (k : A -> option B) : option B :=
  match o with
  | Some a => k a
  | None => None
  end.

Notation "'let*' x ':=' o 'in' k" := (bind o (fun x => k))
  (at level 10, x pattern, o at level 100, k at level 200).

Fixpoint digits (n : nat) (acc : Z) (s : string) : option (Z * string) :=
  match n with
  | O => Some (acc, s)
  | S n' =>
      match s with
      | String c r =>
          let* d := digit_of c in digits n' (10 * acc + d) r
      | EmptyString => None
      end
  end.

Definition starts (c : ascii) (s : string) : option string :=
  match s with
  | String c' r => if Ascii.eqb c c' then Some r else None
  | EmptyString => None
  end.

(** An optional [sep NN] group: the default when [sep] is not next. *)
Definition opt_field (sep : ascii) (n : nat) (default : Z) (s : string)
  : option (Z * string) :=
  match starts sep s with
  | Some r => digits n 0 r
  | None => Some (default, s)
  end.

Inductive zone : Type :=
| ZoneNone
| ZoneOffset (ms : Z).

Definition parse_zone (s : string) : option (zone * string) :=
  match s with
  | String "Z" r => Some (ZoneOffset 0, r)
  | String "+" r =>
      let* (h, r1) := digits 2 0 r in
      let* r2 := starts ":" r1 in
      let* (m, r3) := digits 2 0 r2 in
      Some (ZoneOffset (h * msPerHour + m * msPerMinute), r3)
  | String "-" r =>
      let* (h, r1) := digits 2 0 r in
      let* r2 := starts ":" r1 in
      let* (m, r3) := digits 2 0 r2 in
      Some (ZoneOffset (- (h * msPerHour + m * msPerMinute)), r3)
  | _ => Some (ZoneNone, s)
  end.

Definition legal_date (y m d : Z) : bool :=
  (1 <=? m) && (m <=? 12) && (1 <=? d) && (d <=? DaysInMonth y (m - 1)).

Definition legal_time (h mi s ms : Z) : bool :=
  ((h <=? 23) && (mi <=? 59) && (s <=? 59))
  || ((h =? 24) && (mi =? 0) && (s =? 0) && (ms =? 0)).

Definition parse (tza : Z) (s : string) : number :=
  let* (y, r) := digits 4 0 s in
  let* (m, r) := opt_field "-" 2 1 r in
  let* (d, r) := opt_field "-" 2 1 r in
  if negb (legal_date y m d) then NaN else
  let day := MakeDay y (m - 1) d in
  match r with
  | EmptyString => TimeClip (MakeDate day 0)
  | String "T" r =>
      let* (h, r) := digits 2 0 r in
      let* r := starts ":" r in
      let* (mi, r) := digits 2 0 r in
      let* (sec, r) := opt_field ":" 2 0 r in
      let* (ms, r) := opt_field "." 3 0 r in
      let* (z, r) := parse_zone r in
      if negb (legal_time h mi sec ms) then NaN else
      match r with
      | EmptyString =>
          let local := MakeDate day (MakeTime h mi sec ms) in
          match z with
          | ZoneNone => TimeClip (UTC tza local)
          | ZoneOffset off => TimeClip (local - off)
          end
      | _ => NaN
      end
  | _ => NaN
  end.

End IsoParse.

Definition Date_parse := IsoParse.parse.

(** ** The functions of [core-js-dates-tasks.js] *)

(** A Number that may be fractional: the rational that the source's
    expression denotes, or NaN.  The engine's double is its rounding; the two
    coincide where every intermediate value is held exactly by a double. *)
Definition qnumber := option Q.

(** [x % y] on Numbers: the remainder has the sign of the dividend. *)
Definition Qtrunc (q : Q) : Z :=
  if Qle_bool 0 q then Qfloor q else Qceiling q.

Definition js_rem (x y : Q) : Q := (x - y * inject_Z (Qtrunc (x / y)))%Q.

(** [`0${n}`] *)
Definition zero_prefixed (n : number) : string := "0" ++ numToString n.

Section Tasks.

(** The platform: the local time zone and [Date.parse]. *)
Variable tza : Z.
Variable parse : string -> number.

(** [new Date(text)] *)
Definition DateOfString (text : string) : number := DateOfValue (parse text).

(** [dateToTimestamp(date)]: [return Date.parse(date)]. *)
Definition dateToTimestamp (date : string) : outcome number :=
  Returned (parse date).

(** [getNextFriday(date)]; the result is the time value of the new Date. *)
Definition getNextFriday (date : number) : number :=
  let millisecondsInDay := Some (24 * 60 * 60 * 1000) in
  let dateInMilliseconds := getTime date in
  let dateDay := getDay tza date in
  if num_seq dateDay (Some 5) then
    DateOfValue (num_add dateInMilliseconds
                         (num_mul (Some 7) millisecondsInDay))
  else if num_lt dateDay (Some 5) then
    DateOfValue (num_add dateInMilliseconds
                         (num_mul (num_sub (Some 5) dateDay) millisecondsInDay))
  else
    DateOfValue (num_add dateInMilliseconds
                         (num_mul (Some 6) millisecondsInDay)).

(** [getCountDaysOnPeriod(dateStart, dateEnd)] *)
Definition getCountDaysOnPeriod (dateStart dateEnd : string) : qnumber :=
  let millisecondsInDay := 24 * 60 * 60 * 1000 in
  match valueOf (DateOfString dateEnd), valueOf (DateOfString dateStart) with
  | Some e, Some s =>
      Some (1 + inject_Z (e - s) / inject_Z millisecondsInDay)%Q
  | _, _ => None
  end.

(** [formatDate(date)] *)
Definition formatDate (date : string) : string :=
  let d := DateOfString date in
  let day := getUTCDate d in
  let month := num_add (getUTCMonth d) (Some 1) in
  let year := getUTCFullYear d in
  let hour := getUTCHours d in
  let option := "AM" in
  let '(hour, option) :=
    if num_ge hour (Some 12) then
      ((if num_gt hour (Some 12) then num_sub hour (Some 12) else hour), "PM")
    else (hour, option) in
  let min :=
    if num_lt (getMinutes tza d) (Some 10)
    then zero_prefixed (getMinutes tza d)
    else numToString (getMinutes tza d) in
  let sec :=
    if num_lt (getSeconds tza d) (Some 10)
    then zero_prefixed (getSeconds tza d)
    else numToString (getSeconds tza d) in
  numToString month ++ "/" ++ numToString day ++ "/" ++ numToString year
    ++ ", " ++ numToString hour ++ ":" ++ min ++ ":" ++ sec ++ " " ++ option.

(** [getCountWeekendsInMonth(month, year)] *)
Definition getCountWeekendsInMonth (month year : Z) : number :=
  let day := getDay tza (DateYM tza (Some year) (Some (month - 1))) in
  let day := if num_seq day (Some 0) then Some 7 else day in
  let countDays :=
    if month =? 12 then Some 31
    else
      let nextMonth := DateYM tza (Some year) (Some month) in
      let nextMonth' :=
        setDate tza nextMonth (num_sub (getDate tza nextMonth) (Some 1)) in
      getDate tza (DateOfValue nextMonth') in
  let count := Some 0 in
  let count := if num_le day (Some 6) then num_add count (Some 2) else count in
  let count := if num_seq day (Some 7) then num_add count (Some 1) else count in
  let remainDay :=
    num_sub countDays (num_add (num_sub (Some 7) day) (Some 1)) in
  let fullWeekend := option_map (fun r => r / 7) remainDay in
  let count := num_add count (num_mul fullWeekend (Some 2)) in
  let remainDay := num_sub remainDay (num_mul fullWeekend (Some 7)) in
  let count :=
    if num_seq remainDay (Some 6) then num_add count (Some 1) else count in
  count.

(** [getWeekNumberByDate(date)].  [countDays] and [remainDay] are
    fractional when [date] is not at local midnight; a NaN among the three
    values read from the Date objects makes [count] NaN. *)
Definition getWeekNumberByDate (date : number) : number :=
  let year := getFullYear tza date in
  let firstDay := getDay tza (DateYM tza year (Some 0)) in
  let firstDay := if num_seq firstDay (Some 0) then Some 7 else firstDay in
  let millisecondsInDay := 1000 * 60 * 60 * 24 in
  match valueOf date, valueOf (DateYM tza year (Some 0)), firstDay with
  | Some dv, Some jv, Some fd =>
      let countDays : Q :=
        (1 + inject_Z (dv - jv) / inject_Z millisecondsInDay)%Q in
      let count := 0 in
      let count := if fd <=? 4 then count + 1 else count in
      let remainDay : Q := (countDays - inject_Z (7 - fd + 1))%Q in
      let fullWeekend := Qfloor (remainDay / 7) in
      let count := count + fullWeekend in
      let count :=
        if negb (Qeq_bool (js_rem remainDay 7) 0) then count + 1 else count in
      Some count
  | _, _, _ => NaN
  end.

(** [getNextFridayThe13th(date)].  [resultDate] is the argument itself, so
    one time value is threaded through the setters; the loop is bounded by
    [fuel] and [None] means that the fuel ran out. *)
Fixpoint friday13_loop (fuel : nat) (resultDate : number) : option number :=
  match fuel with
  | O => None
  | S fuel' =>
      if negb (num_seq (getDay tza resultDate) (Some 5)) then
        friday13_loop fuel'
          (setMonth tza resultDate (num_add (getMonth tza resultDate) (Some 1)))
      else Some resultDate
  end.

Definition getNextFridayThe13th (fuel : nat) (date : number) : option number :=
  let resultDate :=
    if num_gt (getDate tza date) (Some 13)
    then setMonth tza date (num_add (getMonth tza date) (Some 1))
    else date in
  let resultDate := setDate tza resultDate (Some 13) in
  friday13_loop fuel resultDate.

(** [getWorkSchedule(period, countWorkDays, countOffDays)] *)
Record DatePeriod : Type := { start : string; end_ : string }.

(** The text pushed for the running time value. *)
Definition schedule_entry (start : number) : string :=
  let startDate := DateOfValue start in
  let startDateDate :=
    if num_lt (getDate tza startDate) (Some 10)
    then zero_prefixed (getDate tza startDate)
    else numToString (getDate tza startDate) in
  let startDateMonth :=
    if num_lt (getMonth tza startDate) (Some 9)
    then zero_prefixed (num_add (getMonth tza startDate) (Some 1))
    else numToString (num_add (getMonth tza startDate) (Some 1)) in
  startDateDate ++ "-" ++ startDateMonth ++ "-"
    ++ numToString (getFullYear tza startDate).

(** One pass through the body of the [while]. *)
Definition schedule_step (countWorkDays millisecondsInOffDays : Z)
           (st : number * Z * list string) : number * Z * list string :=
  let '(start, count, arr) := st in
  let millisecondsInDays := 1000 * 60 * 60 * 24 in
  if count =? countWorkDays then
    (num_add start (Some millisecondsInOffDays), 0, arr)
  else
    (num_add start (Some millisecondsInDays), count + 1,
     (arr ++ [schedule_entry start])%list).

Fixpoint schedule_loop (fuel : nat) (end' : number)
         (countWorkDays millisecondsInOffDays : Z)
         (st : number * Z * list string) : option (list string) :=
  match fuel with
  | O => None
  | S fuel' =>
      let '(start, _, arr) := st in
      if num_ge end' start then
        schedule_loop fuel' end' countWorkDays millisecondsInOffDays
                      (schedule_step countWorkDays millisecondsInOffDays st)
      else Some arr
  end.

(** [new Date(text.split('-')[2], text.split('-')[1] - 1,
    text.split('-')[0]).getTime()] *)
Definition period_time (text : string) : number :=
  getTime (DateYMD tza
             (ToNumber (index (split "-" text) 2))
             (num_sub (ToNumber (index (split "-" text) 1)) (Some 1))
             (ToNumber (index (split "-" text) 0))).

Definition getWorkSchedule (fuel : nat) (period : DatePeriod)
           (countWorkDays countOffDays : Z) : option (outcome (list string)) :=
  let millisecondsInOffDays := 1000 * 60 * 60 * 24 * countOffDays in
  let arr := [] in
  let start := period_time (start period) in
  let end' := period_time (end_ period) in
  let count := 0 in
  option_map Returned
    (schedule_loop fuel end' countWorkDays millisecondsInOffDays
                   (start, count, arr)).

End Tasks.

(** ** The other functions of [core-js-dates-tasks.js] *)

(** [x % y] on integral Numbers: the remainder has the sign of [x]. *)
Definition num_rem := num_lift2 Z.rem.

(** The object literal of [getDayName], keys in the order of the source. *)
Definition days : list (Z * string) :=
  [(1, "Monday"); (2, "Tuesday"); (3, "Wednesday"); (4, "Thursday");
   (5, "Friday"); (6, "Saturday"); (0, "Sunday")].

(** [obj[key]]: [undefined] ([None]) for a key that the object lacks, and for
    NaN. *)
Fixpoint property (obj : list (Z * string)) (key : Z) : option string :=
  match obj with
  | [] => None
  | (k, v) :: rest => if k =? key then Some v else property rest key
  end.

Definition property_of (obj : list (Z * string)) (key : number)
  : option string :=
  match key with
  | Some k => property obj k
  | None => None
  end.

Section OtherTasks.

Variable tza : Z.
Variable parse : string -> number.

(** [getDayName(date)] *)
Definition getDayName (date : string) : option string :=
  property_of days (getUTCDay (DateOfString parse date)).

(** [getCountDaysInMonth(month, year)] *)
Definition getCountDaysInMonth (month year : Z) : number :=
  if month =? 12 then Some 31
  else
    let nextMonth := DateYM tza (Some year) (Some month) in
    getDate tza
      (DateOfValue
         (setDate tza nextMonth (num_sub (getDate tza nextMonth) (Some 1)))).

(** [isDateInPeriod(date, period)] *)
Definition isDateInPeriod (date : string) (period : DatePeriod) : bool :=
  num_ge (valueOf (DateOfString parse date))
         (valueOf (DateOfString parse (start period)))
  && num_le (valueOf (DateOfString parse date))
            (valueOf (DateOfString parse (end_ period))).

(** [getQuarter(date)] *)
Definition getQuarter (date : number) : Z :=
  if num_lt (getMonth tza date) (Some 3) then 1
  else if num_lt (getMonth tza date) (Some 6) then 2
  else if num_lt (getMonth tza date) (Some 9) then 3
  else 4.

(** [isLeapYear(date)] *)
Definition isLeapYear (date : number) : bool :=
  let year := getFullYear tza date in
  if num_seq (num_rem year (Some 400)) (Some 0) then true
  else if num_seq (num_rem year (Some 4)) (Some 0)
          && negb (num_seq (num_rem year (Some 100)) (Some 0)) then true
  else false.

End OtherTasks.

(** [getTime(date)] of the source, which shares its name with the method
    [Date.prototype.getTime] modelled in [EcmaDate]. *)
Module Formatting.

Definition getTime (tza : Z) (date : number) : string :=
  let hour :=
    if num_ge (getHours tza date) (Some 10)
    then numToString (getHours tza date)
    else zero_prefixed (getHours tza date) in
  let min :=
    if num_ge (getMinutes tza date) (Some 10)
    then numToString (getMinutes tza date)
    else zero_prefixed (getMinutes tza date) in
  let sec :=
    if num_ge (getSeconds tza date) (Some 10)
    then numToString (getSeconds tza date)
    else zero_prefixed (getSeconds tza date) in
  hour ++ ":" ++ min ++ ":" ++ sec.

End Formatting.

(** ** Reference notions used in the statements

    They are written over the calendar of [EcmaDate] alone and do not look at
    the functions of the source. *)

(** The integers [lo, lo+1, ..., lo+n-1]. *)
Fixpoint zrange (lo : Z) (n : nat) : list Z :=
  match n with
  | O => []
  | S n' => lo :: zrange (lo + 1) n'
  end.

(** Years all of whose days are time values of a Date in every zone less than
    a day away from UTC. *)
Definition yearInRange (y : Z) : Prop := -271820 <= y <= 275759.

Definition zoneInRange (tza : Z) : Prop := - msPerDay < tza < msPerDay.

(** [(d, m, y)] is a date of the calendar, [m] counted from 1. *)
Definition calendarDate (d m y : Z) : Prop :=
  1 <= m <= 12 /\ 1 <= d <= DaysInMonth y (m - 1).

(** Saturday (6) and Sunday (0), in the numbering of [WeekDay]. *)
Definition isWeekendDay (w : Z) : bool := (w =? 0) || (w =? 6).

(** Number of Saturdays and Sundays among the days of month [month] (1..12)
    of [year], counted day by day. *)
Definition weekendDaysInMonth (month year : Z) : Z :=
  Z.of_nat
    (List.length
       (filter (fun dt => isWeekendDay
                            (WeekDay (MakeDate (MakeDay year (month - 1) dt) 0)))
               (zrange 1 (Z.to_nat (DaysInMonth year (month - 1)))))).

(** The calendar date of day number [day] (days since the epoch), written
    with a two-digit day, a two-digit month and the year. *)
Definition two_digits (n : Z) : string :=
  if n <? 10 then "0" ++ numToString (Some n) else numToString (Some n).

Definition dayText (day : Z) : string :=
  let t := MakeDate day 0 in
  two_digits (DateFromTime t) ++ "-" ++ two_digits (MonthFromTime t + 1)
    ++ "-" ++ numToString (Some (YearFromTime t)).

(** [text] consists of three [-]-separated decimal fields with the values
    [d], [m] and [y]. *)
Definition reads_as (text : string) (d m y : Z) : Prop :=
  exists sd sm sy,
    split "-" text = [sd; sm; sy]
    /\ digits_value 0 sd = Some d
    /\ digits_value 0 sm = Some m
    /\ digits_value 0 sy = Some y.

(** Day [k] (counted from 0) of a cycle of [work] working days followed by
    [off] days off is a working day. *)
Definition workingDay (work off k : Z) : bool := k mod (work + off) <? work.

(** The working days among the first [len] days of the cycle. *)
Definition cycleDays (work off : Z) (len : nat) : list Z :=
  filter (workingDay work off) (zrange 0 len).

(** A Number that is a non-negative integer. *)
Definition nonNegativeInteger (q : Q) : Prop :=
  exists n : Z, 0 <= n /\ (q == inject_Z n)%Q.

(** The leap flag of year [y]: 1 for a year of 366 days, else 0. *)
Definition leapFlag (y : Z) : Z := if DaysInYear y =? 366 then 1 else 0.

(** Days from the 13th of month [mn] (0..11) of a year to the 13th [j] months
    later ([mn + j <= 24]), by the leap flags [l0] of that year and [l1] of
    the year after. *)
Definition thirteenth_offset (l0 l1 mn j : Z) : Z :=
  if mn + j <? 12 then
    DaysBeforeMonth l0 (mn + j) - DaysBeforeMonth l0 mn
  else if mn + j <? 24 then
    365 + l0 + DaysBeforeMonth l1 (mn + j - 12) - DaysBeforeMonth l0 mn
  else 365 + l0 + 365 + l1 - DaysBeforeMonth l0 mn.

(** * Properties *)

(** ** The calendar of [EcmaDate] *)

Lemma DayFromYear_succ y : DayFromYear (y + 1) = DayFromYear y + DaysInYear y.
Proof.
  unfold DayFromYear, DaysInYear.
  destruct (Z.eqb_spec (y mod 4) 0), (Z.eqb_spec (y mod 100) 0),
    (Z.eqb_spec (y mod 400) 0); cbn [negb]; Z.div_mod_to_equations; lia.
Qed.

Lemma DaysInYear_cases y : DaysInYear y = 365 \/ DaysInYear y = 366.
Proof.
  unfold DaysInYear.
  destruct (y mod 4 =? 0), (y mod 100 =? 0), (y mod 400 =? 0); cbn; auto.
Qed.

Lemma DayFromYear_mono y1 y2 : y1 <= y2 -> DayFromYear y1 <= DayFromYear y2.
Proof.
  intros H. unfold DayFromYear. Z.div_mod_to_equations. lia.
Qed.

(** [YearFromDay d] is a year that contains day [d] ... *)
Lemma YearFromDay_bounds d :
  DayFromYear (YearFromDay d) <= d < DayFromYear (YearFromDay d + 1).
Proof.
  unfold YearFromDay.
  set (y := 1970 + 400 * d / 146097).
  destruct (Z.ltb_spec d (DayFromYear y)).
  - replace (y - 1 + 1) with y by lia. split; [|lia].
    subst y. unfold DayFromYear in *. Z.div_mod_to_equations. lia.
  - destruct (Z.leb_spec (DayFromYear (y + 1)) d).
    + split; [lia|]. subst y. unfold DayFromYear in *.
      Z.div_mod_to_equations. lia.
    + lia.
Qed.

(** ... and the only one: it is the largest [y] with [DayFromYear y <= d]. *)
Lemma YearFromDay_unique d y :
  DayFromYear y <= d < DayFromYear (y + 1) -> YearFromDay d = y.
Proof.
  intros [Hlo Hhi].
  pose proof (YearFromDay_bounds d) as [Blo Bhi].
  destruct (Z.lt_trichotomy (YearFromDay d) y) as [Hlt | [Heq | Hgt]]; auto.
  - pose proof (DayFromYear_mono (YearFromDay d + 1) y ltac:(lia)). lia.
  - pose proof (DayFromYear_mono (y + 1) (YearFromDay d) ltac:(lia)). lia.
Qed.

Lemma Day_MakeDate day time :
  0 <= time < msPerDay -> Day (MakeDate day time) = day.
Proof.
  intros H. unfold Day, MakeDate, msPerDay in *.
  Z.div_mod_to_equations. lia.
Qed.

Lemma TimeWithinDay_MakeDate day time :
  0 <= time < msPerDay -> TimeWithinDay (MakeDate day time) = time.
Proof.
  intros H. unfold TimeWithinDay, MakeDate, msPerDay in *.
  Z.div_mod_to_equations. lia.
Qed.

Lemma MakeDate_Day t : MakeDate (Day t) (TimeWithinDay t) = t.
Proof.
  unfold MakeDate, Day, TimeWithinDay, msPerDay.
  Z.div_mod_to_equations. lia.
Qed.

Lemma TimeWithinDay_range t : 0 <= TimeWithinDay t < msPerDay.
Proof. apply Z.mod_pos_bound. reflexivity. Qed.

Lemma Day_add_days t k : Day (t + k * msPerDay) = Day t + k.
Proof. unfold Day. apply Z.div_add. discriminate. Qed.

Lemma TimeWithinDay_add_days t k :
  TimeWithinDay (t + k * msPerDay) = TimeWithinDay t.
Proof. unfold TimeWithinDay. apply Z.mod_add. discriminate. Qed.

Lemma WeekDay_add_days t k : WeekDay (t + k * msPerDay) = (WeekDay t + k) mod 7.
Proof.
  unfold WeekDay. rewrite Day_add_days.
  replace (Day t + k + 4) with (Day t + 4 + k) by lia.
  now rewrite Z.add_mod_idemp_l.
Qed.

Lemma WeekDay_range t : 0 <= WeekDay t < 7.
Proof. apply Z.mod_pos_bound. reflexivity. Qed.

Lemma MakeDay_month y mn dt :
  0 <= mn <= 11 ->
  MakeDay y mn dt =
  DayFromYear y + DaysBeforeMonth (if DaysInYear y =? 366 then 1 else 0) mn
  + dt - 1.
Proof.
  intros H. unfold MakeDay.
  rewrite Z.div_small, Z.mod_small, Z.add_0_r by lia. reflexivity.
Qed.

Lemma MakeDay_date y mn dt : MakeDay y mn dt = MakeDay y mn 1 + (dt - 1).
Proof. unfold MakeDay. lia. Qed.

Ltac month_cases mn H :=
  assert (mn = 0 \/ mn = 1 \/ mn = 2 \/ mn = 3 \/ mn = 4 \/ mn = 5 \/ mn = 6
          \/ mn = 7 \/ mn = 8 \/ mn = 9 \/ mn = 10 \/ mn = 11) as H by lia;
  repeat (destruct H as [H | H]); subst mn.

(** The first of the next month follows the last day of the month. *)
Lemma DaysBeforeMonth_next leap y mn :
  0 <= mn <= 10 ->
  leap = (if DaysInYear y =? 366 then 1 else 0) ->
  DaysBeforeMonth leap (mn + 1) = DaysBeforeMonth leap mn + DaysInMonth y mn.
Proof.
  intros H ->. unfold DaysInMonth.
  month_cases mn Hc; try lia; destruct (DaysInYear y =? 366); reflexivity.
Qed.

(** A day of a month lies in its year. *)
Lemma MakeDay_in_year y mn dt :
  0 <= mn <= 11 -> 1 <= dt <= DaysInMonth y mn ->
  DayFromYear y <= MakeDay y mn dt < DayFromYear (y + 1).
Proof.
  intros Hm Hd. rewrite MakeDay_month, DayFromYear_succ by assumption.
  unfold DaysInMonth in Hd.
  destruct (DaysInYear_cases y) as [E | E]; rewrite E in *;
    month_cases mn Hc; cbn in *; lia.
Qed.

(** Reading back the fields of a date built by [MakeDay]. *)
Lemma fields_of_MakeDay y mn dt t :
  0 <= mn <= 11 -> 1 <= dt <= DaysInMonth y mn ->
  Day t = MakeDay y mn dt ->
  YearFromTime t = y /\ MonthFromTime t = mn /\ DateFromTime t = dt.
Proof.
  intros Hm Hd Ht.
  assert (Hy : YearFromTime t = y).
  { unfold YearFromTime. rewrite Ht.
    apply YearFromDay_unique, MakeDay_in_year; assumption. }
  assert (Hw : DayWithinYear t
               = DaysBeforeMonth (if DaysInYear y =? 366 then 1 else 0) mn
                 + dt - 1).
  { unfold DayWithinYear. rewrite Hy, Ht, MakeDay_month by assumption. lia. }
  assert (Hl : InLeapYear t = if DaysInYear y =? 366 then 1 else 0).
  { unfold InLeapYear. now rewrite Hy. }
  split; [assumption|].
  unfold DaysInMonth in Hd.
  assert (Hmo : MonthFromTime t = mn).
  { unfold MonthFromTime. rewrite Hw, Hl. clear Hw Hl Hy Ht.
    destruct (DaysInYear y =? 366);
      month_cases mn Hc; cbv beta iota in Hd; cbv beta iota delta [DaysBeforeMonth];
      repeat match goal with
             | |- context [?a <? ?b] => destruct (Z.ltb_spec a b); try lia
             end. }
  split; [assumption|].
  unfold DateFromTime. rewrite Hmo, Hw, Hl. clear Hw Hl Hy Ht Hmo.
  destruct (DaysInYear y =? 366);
    month_cases mn Hc; cbv beta iota delta [DaysBeforeMonth]; lia.
Qed.


(** ** Date objects with in-range time values *)

Lemma TimeClip_ok t : - maxTime <= t <= maxTime -> TimeClip t = Some t.
Proof.
  intros H. unfold TimeClip.
  destruct (Z.ltb_spec maxTime (Z.abs t)); [lia | reflexivity].
Qed.

Lemma TimeClip_Some t u : TimeClip t = Some u -> u = t /\ - maxTime <= t <= maxTime.
Proof.
  unfold TimeClip.
  destruct (Z.ltb_spec maxTime (Z.abs t)); [discriminate|].
  intros [= <-]. lia.
Qed.

Lemma year_days_in_range y D :
  yearInRange y -> DayFromYear y - 1 <= D < DayFromYear (y + 1) ->
  -99999745 <= D <= 99999744.
Proof.
  unfold yearInRange. intros Hy HD.
  pose proof (DayFromYear_mono (-271820) y ltac:(lia)) as Hlo.
  pose proof (DayFromYear_mono (y + 1) 275760 ltac:(lia)) as Hhi.
  change (DayFromYear (-271820)) with (-99999744) in Hlo.
  change (DayFromYear 275760) with 99999744 in Hhi.
  lia.
Qed.

Lemma local_time_value tza D tod :
  zoneInRange tza -> -99999745 <= D <= 99999744 -> 0 <= tod < msPerDay ->
  TimeClip (UTC tza (MakeDate D tod)) = Some (MakeDate D tod - tza).
Proof.
  unfold zoneInRange, UTC, MakeDate, msPerDay. intros Hz HD Ht.
  apply TimeClip_ok. unfold maxTime. lia.
Qed.

Lemma fullYear_range y : yearInRange y -> yearInRange (fullYear y).
Proof.
  unfold yearInRange, fullYear. intros H.
  destruct (Z.leb_spec 0 y), (Z.leb_spec y 99); cbn [andb]; lia.
Qed.

Lemma fullYear_id y : ~ 0 <= y <= 99 -> fullYear y = y.
Proof.
  unfold fullYear. intros H.
  destruct (Z.leb_spec 0 y), (Z.leb_spec y 99); cbn [andb]; lia.
Qed.

Lemma LocalTime_UTC tza t : LocalTime tza (t - tza) = t.
Proof. unfold LocalTime. lia. Qed.

(** [new Date(y, mn, dt)] for a day of the month, or the day before it. *)
Lemma DateYMD_value tza y mn dt :
  zoneInRange tza -> yearInRange y -> 0 <= mn <= 11 ->
  0 <= dt <= DaysInMonth (fullYear y) mn ->
  DateYMD tza (Some y) (Some mn) (Some dt)
  = Some (MakeDate (MakeDay (fullYear y) mn dt) 0 - tza).
Proof.
  intros Hz Hy Hm Hd. unfold DateYMD. change (MakeTime 0 0 0 0) with 0.
  apply local_time_value; [assumption | | unfold msPerDay; lia].
  apply (year_days_in_range (fullYear y)); [now apply fullYear_range|].
  assert (Hone : 1 <= DaysInMonth (fullYear y) mn).
  { unfold DaysInMonth. month_cases mn Hc;
      try destruct (DaysInYear (fullYear y) =? 366); lia. }
  pose proof (MakeDay_in_year (fullYear y) mn 1 Hm ltac:(lia)) as H1.
  pose proof (MakeDay_in_year (fullYear y) mn _ Hm
                (conj Hone (Z.le_refl _))) as H2.
  rewrite (MakeDay_date _ _ dt).
  rewrite (MakeDay_date _ _ (DaysInMonth (fullYear y) mn)) in H2. lia.
Qed.

Lemma DaysInMonth_range y mn : 28 <= DaysInMonth y mn <= 31.
Proof.
  unfold DaysInMonth.
  repeat match goal with
         | |- context [match ?x with _ => _ end] => destruct x
         end; lia.
Qed.

(** The month length as [getCountWeekendsInMonth] (and
    [getCountDaysInMonth]) obtains it: the date of the day before the first
    of the next month. *)
Lemma month_length_by_setDate tza y month :
  zoneInRange tza -> yearInRange y -> 1 <= month <= 11 ->
  getDate tza
    (DateOfValue
       (setDate tza (DateYM tza (Some y) (Some month))
                (num_sub (getDate tza (DateYM tza (Some y) (Some month)))
                         (Some 1))))
  = Some (DaysInMonth (fullYear y) (month - 1)).
Proof.
  intros Hz Hy Hm. unfold DateYM.
  pose proof (DaysInMonth_range (fullYear y) month) as Hr.
  rewrite DateYMD_value by (auto; lia).
  set (t := MakeDate (MakeDay (fullYear y) month 1) 0).
  assert (Hday : Day t = MakeDay (fullYear y) month 1)
    by (apply Day_MakeDate; unfold msPerDay; lia).
  destruct (fields_of_MakeDay (fullYear y) month 1 t ltac:(lia) ltac:(lia) Hday)
    as (Hyr & Hmo & Hdt).
  unfold getDate at 2, local_field, option_map.
  rewrite LocalTime_UTC, Hdt. cbn [num_sub num_lift2].
  unfold setDate. rewrite LocalTime_UTC, Hyr, Hmo.
  replace (TimeWithinDay t) with 0
    by (symmetry; apply TimeWithinDay_MakeDate; unfold msPerDay; lia).
  assert (Hprev : MakeDay (fullYear y) month (1 - 1)
                  = MakeDay (fullYear y) (month - 1)
                            (DaysInMonth (fullYear y) (month - 1))).
  { rewrite !MakeDay_month by lia.
    replace month with (month - 1 + 1) at 1 by lia.
    rewrite (DaysBeforeMonth_next _ (fullYear y)) by (auto; lia). lia. }
  rewrite Hprev.
  pose proof (DaysInMonth_range (fullYear y) (month - 1)) as Hr'.
  assert (Hv := DateYMD_value tza y (month - 1)
                  (DaysInMonth (fullYear y) (month - 1)) Hz Hy).
  specialize (Hv ltac:(lia) ltac:(lia)).
  unfold DateYMD in Hv. change (MakeTime 0 0 0 0) with 0 in Hv.
  rewrite Hv. unfold DateOfValue.
  destruct (TimeClip_Some _ _ Hv) as [_ Hb].
  unfold UTC in Hb. rewrite (TimeClip_ok _ Hb).
  unfold getDate, local_field, option_map. rewrite LocalTime_UTC.
  f_equal.
  eapply fields_of_MakeDay; [| | apply Day_MakeDate; unfold msPerDay; lia]; lia.
Qed.

(** ** [getCountWeekendsInMonth] *)

Lemma WeekDay_MakeDate D : WeekDay (MakeDate D 0) = (D + 4) mod 7.
Proof.
  unfold WeekDay. rewrite Day_MakeDate by (unfold msPerDay; lia). reflexivity.
Qed.

Lemma getDay_value tza t : getDay tza (Some (t - tza)) = Some (WeekDay t).
Proof. unfold getDay, local_field, option_map. now rewrite LocalTime_UTC. Qed.

(** The weekday of a day of the month depends on the weekday of the first
    only. *)
Lemma weekend_filter_shift D l :
  filter (fun dt => isWeekendDay (WeekDay (MakeDate (D + (dt - 1)) 0))) l
  = filter (fun dt => isWeekendDay (((D + 4) mod 7 + (dt - 1)) mod 7)) l.
Proof.
  apply filter_ext. intros dt. rewrite WeekDay_MakeDate.
  rewrite Z.add_mod_idemp_l by discriminate.
  replace (D + (dt - 1) + 4) with (D + 4 + (dt - 1)) by lia. reflexivity.
Qed.

(** The closed form of the source counts the weekend days of the month of
    the year that [new Date(year, ...)] denotes. *)
Lemma getCountWeekendsInMonth_counts tza month year :
  zoneInRange tza -> yearInRange year -> 1 <= month <= 12 ->
  getCountWeekendsInMonth tza month year
  = Some (weekendDaysInMonth month (fullYear year)).
Proof.
  intros Hz Hy Hm. unfold getCountWeekendsInMonth, weekendDaysInMonth.
  pose proof (DaysInMonth_range (fullYear year) (month - 1)) as Hr.
  assert (Hc : (if month =? 12 then Some 31
                else getDate tza
                       (DateOfValue
                          (setDate tza (DateYM tza (Some year) (Some month))
                             (num_sub
                                (getDate tza
                                   (DateYM tza (Some year) (Some month)))
                                (Some 1)))))
               = Some (DaysInMonth (fullYear year) (month - 1))).
  { destruct (Z.eqb_spec month 12) as [-> | Hne].
    - reflexivity.
    - apply month_length_by_setDate; auto; lia. }
  rewrite Hc. clear Hc.
  unfold DateYM. rewrite (DateYMD_value tza year (month - 1) 1) by (auto; lia).
  rewrite getDay_value, WeekDay_MakeDate.
  erewrite filter_ext
    by (intros dt; rewrite (MakeDay_date _ _ dt); reflexivity).
  rewrite weekend_filter_shift.
  pose proof (Z.mod_pos_bound (MakeDay (fullYear year) (month - 1) 1 + 4) 7
                eq_refl) as Hw.
  generalize dependent ((MakeDay (fullYear year) (month - 1) 1 + 4) mod 7).
  generalize dependent (DaysInMonth (fullYear year) (month - 1)).
  intros n Hn w Hw.
  assert (Hn' : n = 28 \/ n = 29 \/ n = 30 \/ n = 31) by lia.
  assert (Hw' : w = 0 \/ w = 1 \/ w = 2 \/ w = 3 \/ w = 4 \/ w = 5 \/ w = 6)
    by lia.
  clear Hn Hw.
  repeat (destruct Hn' as [Hn' | Hn']); subst n;
    repeat (destruct Hw' as [Hw' | Hw']); subst w; vm_compute; reflexivity.
Qed.

(** C3, as amended: for every month 1..12 and every year of the Date range
    outside 0..99, [getCountWeekendsInMonth] returns the number of Saturdays
    and Sundays of that month; in particular it returns 9 for (5, 2022), 10
    for (12, 2023) and 8 for (1, 2024). *)
Theorem getCountWeekendsInMonth_spec :
  forall tza, zoneInRange tza ->
    (forall month year,
        1 <= month <= 12 -> yearInRange year -> ~ 0 <= year <= 99 ->
        getCountWeekendsInMonth tza month year
        = Some (weekendDaysInMonth month year))
    /\ getCountWeekendsInMonth tza 5 2022 = Some 9
    /\ getCountWeekendsInMonth tza 12 2023 = Some 10
    /\ getCountWeekendsInMonth tza 1 2024 = Some 8.
Proof.
  intros tza Hz. split; [| split; [| split]].
  - intros month year Hm Hy Hn.
    rewrite getCountWeekendsInMonth_counts by assumption.
    now rewrite fullYear_id.
  - rewrite getCountWeekendsInMonth_counts; [reflexivity | assumption | | lia].
    unfold yearInRange; lia.
  - rewrite getCountWeekendsInMonth_counts; [reflexivity | assumption | | lia].
    unfold yearInRange; lia.
  - rewrite getCountWeekendsInMonth_counts; [reflexivity | assumption | | lia].
    unfold yearInRange; lia.
Qed.

Lemma getCountWeekendsInMonth_spec_witness :
  zoneInRange 3600000 /\ 1 <= 2 <= 12 /\ yearInRange 2024 /\ ~ 0 <= 2024 <= 99
  /\ getCountWeekendsInMonth 3600000 2 2024 = Some (weekendDaysInMonth 2 2024).
Proof.
  assert (Hz : zoneInRange 3600000) by (unfold zoneInRange, msPerDay; lia).
  assert (Hm : 1 <= 2 <= 12) by lia.
  assert (Hy : yearInRange 2024) by (unfold yearInRange; lia).
  assert (Hn : ~ 0 <= 2024 <= 99) by lia.
  split; [exact Hz | split; [exact Hm | split; [exact Hy | split; [exact Hn |]]]].
  exact (proj1 (getCountWeekendsInMonth_spec 3600000 Hz) 2 2024 Hm Hy Hn).
Defined.

(** C3 as stated fails for the years that [new Date(year, month)] reads as
    1900 + year: asked for January of year 50, the source answers for January
    1950 (9 weekend days), while January of year 50 has 10. *)
Lemma getCountWeekendsInMonth_two_digit_year :
  getCountWeekendsInMonth 0 1 50 = Some 9 /\ weekendDaysInMonth 1 50 = 10.
Proof. split; vm_compute; reflexivity. Qed.

(** ** [getNextFriday] *)

Lemma getDay_add_days tza t k :
  getDay tza (Some (t + k * msPerDay))
  = Some ((WeekDay (LocalTime tza t) + k) mod 7).
Proof.
  unfold getDay, local_field, option_map, LocalTime.
  replace (t + k * msPerDay + tza) with (t + tza + k * msPerDay) by lia.
  now rewrite WeekDay_add_days.
Qed.

(** The number of days that [getNextFriday] adds, by local weekday. *)
Lemma getNextFriday_days tza t :
  - maxTime <= t -> t + 7 * msPerDay <= maxTime ->
  let w := WeekDay (LocalTime tza t) in
  getNextFriday tza (Some t)
  = Some (t + (if w =? 5 then 7 else if w <? 5 then 5 - w else 6) * msPerDay).
Proof.
  intros Hlo Hhi w. unfold getNextFriday.
  change (24 * 60 * 60 * 1000) with msPerDay.
  unfold getTime, getDay, local_field, option_map. fold w.
  pose proof (WeekDay_range (LocalTime tza t)) as Hw. fold w in Hw.
  cbn [num_seq num_lt num_test2 num_add num_sub num_mul num_lift2].
  assert (Hm : msPerDay = 86400000) by reflexivity.
  destruct (Z.eqb_spec w 5); [| destruct (Z.ltb_spec w 5)];
    unfold DateOfValue; apply TimeClip_ok; lia.
Qed.




(** ** [getWeekNumberByDate] *)

(** The days left after the first (partial) week, as a fraction of whole
    milliseconds: [remainDay = n / msPerDay] with
    [n = delta + (firstDay - 7) * msPerDay]. *)
Lemma remainDay_fraction (delta fd : Z) :
  (1 + inject_Z delta / inject_Z (1000 * 60 * 60 * 24) - inject_Z (7 - fd + 1)
   == inject_Z (delta + (fd - 7) * msPerDay) / inject_Z msPerDay)%Q.
Proof.
  change (1000 * 60 * 60 * 24) with msPerDay.
  assert (HM : ~ (inject_Z msPerDay == 0)%Q).
  { change 0%Q with (inject_Z 0). rewrite inject_Z_injective. discriminate. }
  unfold Z.sub. rewrite !inject_Z_plus, inject_Z_mult, !inject_Z_plus,
    !inject_Z_opp.
  change (inject_Z 7) with 7%Q. change (inject_Z 1) with 1%Q.
  generalize dependent (inject_Z msPerDay).
  generalize (inject_Z delta) (inject_Z fd). intros x y m Hm.
  field. exact Hm.
Qed.

Lemma Qfloor_fraction (n d : Z) :
  0 < d -> Qfloor (inject_Z n / inject_Z d) = n / d.
Proof.
  intros Hd. destruct d as [| p | p]; try lia.
  rewrite <- (Qfloor_comp (n # p)); [reflexivity|].
  apply Qmake_Qdiv.
Qed.

Lemma fullWeekend_quotient (delta fd : Z) :
  Qfloor ((1 + inject_Z delta / inject_Z (1000 * 60 * 60 * 24)
           - inject_Z (7 - fd + 1)) / 7)
  = (delta + (fd - 7) * msPerDay) / (7 * msPerDay).
Proof.
  rewrite <- Qfloor_fraction by (unfold msPerDay; lia).
  apply Qfloor_comp. rewrite remainDay_fraction.
  rewrite inject_Z_mult. change (inject_Z 7) with 7%Q.
  assert (HM : ~ (inject_Z msPerDay == 0)%Q).
  { change 0%Q with (inject_Z 0). rewrite inject_Z_injective. discriminate. }
  generalize dependent (inject_Z msPerDay).
  generalize (inject_Z (delta + (fd - 7) * msPerDay)). intros x m Hm.
  field. exact Hm.
Qed.

(** A remainder of 0 means a whole number of weeks. *)
Lemma js_rem_zero (delta fd : Z) :
  Qeq_bool (js_rem (1 + inject_Z delta / inject_Z (1000 * 60 * 60 * 24)
                    - inject_Z (7 - fd + 1)) 7) 0 = true ->
  (delta + (fd - 7) * msPerDay) mod (7 * msPerDay) = 0.
Proof.
  intros H. apply Qeq_bool_iff in H. unfold js_rem in H.
  set (T := Qtrunc _) in H.
  rewrite remainDay_fraction in H.
  assert (HM : ~ (inject_Z msPerDay == 0)%Q).
  { change 0%Q with (inject_Z 0). rewrite inject_Z_injective. discriminate. }
  assert (E : (inject_Z (delta + (fd - 7) * msPerDay)
               == inject_Z (T * (7 * msPerDay)))%Q).
  { rewrite !(inject_Z_mult T), inject_Z_mult. change (inject_Z 7) with 7%Q.
    generalize dependent (inject_Z msPerDay).
    generalize (inject_Z (delta + (fd - 7) * msPerDay)) (inject_Z T).
    intros x t m H Hm.
    assert (Hx : (x == x / m * m)%Q) by (field; exact Hm).
    rewrite Hx.
    assert (Hq : (x / m == 7 * t)%Q).
    { rewrite <- (Qplus_0_r (7 * t)), <- H. ring. }
    rewrite Hq. ring. }
  apply (proj1 (inject_Z_injective _ _)) in E. rewrite E. apply Z.mod_mul.
  unfold msPerDay. lia.
Qed.

(** X18: Apart from the years 0..99 (read as 1900..1999 by [new Date(year, 0)]),
    the result lies between 0 and 53. *)
Lemma getWeekNumberByDate_range tza dv :
  zoneInRange tza ->
  yearInRange (YearFromTime (LocalTime tza dv)) ->
  ~ 0 <= YearFromTime (LocalTime tza dv) <= 99 ->
  exists n, getWeekNumberByDate tza (Some dv) = Some n /\ 0 <= n <= 53.
Proof.
  intros Hz Hy Hn. unfold getWeekNumberByDate.
  cbn [getFullYear local_field option_map valueOf].
  pose proof (YearFromDay_bounds (Day (LocalTime tza dv))) as Hb.
  fold (YearFromTime (LocalTime tza dv)) in Hb.
  set (y := YearFromTime (LocalTime tza dv)) in *.
  rewrite DayFromYear_succ in Hb.
  pose proof (DaysInYear_cases y) as Hdays.
  unfold DateYM.
  rewrite (DateYMD_value tza y 0 1 Hz Hy) by (unfold DaysInMonth; lia).
  rewrite (fullYear_id y Hn).
  replace (MakeDay y 0 1) with (DayFromYear y)
    by (rewrite MakeDay_month by lia; cbn [DaysBeforeMonth]; lia).
  rewrite getDay_value, WeekDay_MakeDate.
  pose proof (Z.mod_pos_bound (DayFromYear y + 4) 7 eq_refl) as Hw.
  set (w := (DayFromYear y + 4) mod 7) in *.
  set (fd := if w =? 0 then 7 else w).
  assert (Hfd : 1 <= fd <= 7) by (unfold fd; destruct (Z.eqb_spec w 0); lia).
  replace (if num_seq (Some w) (Some 0) then Some 7 else Some w)
    with (Some fd) by (unfold fd; cbn; destruct (w =? 0); reflexivity).
  set (delta := dv - (MakeDate (DayFromYear y) 0 - tza)).
  assert (Hdelta : 0 <= delta < 366 * msPerDay).
  { unfold delta, MakeDate, LocalTime, Day, msPerDay in *.
    Z.div_mod_to_equations. lia. }
  eexists. split; [reflexivity|].
  rewrite fullWeekend_quotient.
  destruct (Qeq_bool _ 0) eqn:Erem; cbn [negb].
  - apply js_rem_zero in Erem.
    destruct (Z.leb_spec fd 4); unfold msPerDay in *;
      Z.div_mod_to_equations; lia.
  - destruct (Z.leb_spec fd 4); unfold msPerDay in *;
      Z.div_mod_to_equations; lia.
Qed.

(** C1 at its failing inputs: for the first of January of 2021 (a Friday),
    2022 (a Saturday) and 2023 (a Sunday) the source returns 0, below the
    week numbers 1..53 of ISO 8601 that its documentation promises. *)
Theorem getWeekNumberByDate_first_of_January :
  getDay 0 (DateYMD 0 (Some 2021) (Some 0) (Some 1)) = Some 5
  /\ getWeekNumberByDate 0 (DateYMD 0 (Some 2021) (Some 0) (Some 1)) = Some 0
  /\ getWeekNumberByDate 0 (DateYMD 0 (Some 2022) (Some 0) (Some 1)) = Some 0
  /\ getWeekNumberByDate 0 (DateYMD 0 (Some 2023) (Some 0) (Some 1)) = Some 0.
Proof. repeat split. Qed.

(** The examples of the documentation. *)
Example getWeekNumberByDate_examples :
  getWeekNumberByDate 0 (DateYMD 0 (Some 2024) (Some 0) (Some 3)) = Some 1
  /\ getWeekNumberByDate 0 (DateYMD 0 (Some 2024) (Some 0) (Some 31)) = Some 5
  /\ getWeekNumberByDate 0 (DateYMD 0 (Some 2024) (Some 1) (Some 23)) = Some 8.
Proof. repeat split. Qed.

(** ** [getNextFridayThe13th] *)

(** C4 at its failing input: from 31 January 2026 the source moves the date
    with [setMonth(1)] to the overflowing "31 February", that is 3 March, and
    so starts at 13 March 2026 and returns it, although 13 February 2026 is a
    Friday. *)
Theorem getNextFridayThe13th_skips_February_2026 :
  getDate 0 (DateYMD 0 (Some 2026) (Some 0) (Some 31)) = Some 31
  /\ setMonth 0 (DateYMD 0 (Some 2026) (Some 0) (Some 31)) (Some 1)
     = DateYMD 0 (Some 2026) (Some 2) (Some 3)
  /\ getNextFridayThe13th 0 24 (DateYMD 0 (Some 2026) (Some 0) (Some 31))
     = Some (DateYMD 0 (Some 2026) (Some 2) (Some 13))
  /\ getDay 0 (DateYMD 0 (Some 2026) (Some 1) (Some 13)) = Some 5.
Proof. repeat split. Qed.

(** The examples of the documentation. *)
Example getNextFridayThe13th_examples :
  getNextFridayThe13th 0 24 (DateYMD 0 (Some 2024) (Some 0) (Some 13))
  = Some (DateYMD 0 (Some 2024) (Some 8) (Some 13))
  /\ getNextFridayThe13th 0 24 (DateYMD 0 (Some 2023) (Some 1) (Some 1))
     = Some (DateYMD 0 (Some 2023) (Some 9) (Some 13)).
Proof. repeat split. Qed.

(** ** [formatDate] *)

(** C7 at its failing inputs: an hour of 0 is printed as 0, not 12; and the
    minutes and seconds are those of the local zone, so that in a zone five
    and a half hours east of UTC 15:00:00 UTC is printed with minute 30. *)
Theorem formatDate_midnight_hour_and_local_minutes :
  formatDate 0 (Date_parse 0) "2024-01-01T00:20:00.000Z"
  = "1/1/2024, 0:20:00 AM"
  /\ formatDate 19800000 (Date_parse 19800000) "2024-02-01T15:00:00.000Z"
     = "2/1/2024, 3:30:00 PM".
Proof. split; vm_compute; reflexivity. Qed.

(** The examples of the documentation, in a zone a whole number of hours from
    UTC. *)
Example formatDate_examples :
  formatDate 3600000 (Date_parse 3600000) "2024-02-01T15:00:00.000Z"
  = "2/1/2024, 3:00:00 PM"
  /\ formatDate 3600000 (Date_parse 3600000) "1999-01-05T02:20:00.000Z"
     = "1/5/1999, 2:20:00 AM"
  /\ formatDate 3600000 (Date_parse 3600000) "2010-12-15T22:59:00.000Z"
     = "12/15/2010, 10:59:00 PM".
Proof. repeat split; vm_compute; reflexivity. Qed.

(** ** [dateToTimestamp] *)

(** C8, as amended: for a text that [Date.parse] does not recognise (it
    answers NaN), [dateToTimestamp] returns NaN to the caller; it raises no
    error. *)
Theorem dateToTimestamp_unrecognized (parse : string -> number) (date : string) :
  parse date = NaN ->
  dateToTimestamp parse date = Returned NaN
  /\ forall e, ~ raises (dateToTimestamp parse date) e.
Proof.
  intros H. unfold dateToTimestamp, raises. rewrite H.
  split; [reflexivity | discriminate].
Qed.

Lemma dateToTimestamp_unrecognized_witness :
  Date_parse 0 "not a date" = NaN
  /\ dateToTimestamp (Date_parse 0) "not a date" = Returned NaN
  /\ forall e, ~ raises (dateToTimestamp (Date_parse 0) "not a date") e.
Proof.
  assert (H : Date_parse 0 "not a date" = NaN) by reflexivity.
  split; [exact H |].
  exact (dateToTimestamp_unrecognized (Date_parse 0) "not a date" H).
Defined.

(** C8 as stated fails: the text "not a date" is not recognised and the call
    ends normally, with no ParseError. *)
Lemma dateToTimestamp_no_ParseError :
  Date_parse 0 "not a date" = NaN
  /\ ~ raises (dateToTimestamp (Date_parse 0) "not a date") ParseError.
Proof. split; [reflexivity | discriminate]. Qed.

(** ** [getCountDaysOnPeriod] *)

(** As a rational, the day span is the integer [n] exactly when the
    instants are [n - 1] whole days apart. *)
Lemma day_span_integer (a n : Z) :
  (1 + inject_Z a / inject_Z (24 * 60 * 60 * 1000) == inject_Z n)%Q
  <-> a = (n - 1) * msPerDay.
Proof.
  change (24 * 60 * 60 * 1000) with msPerDay.
  assert (HM : ~ (inject_Z msPerDay == 0)%Q).
  { change 0%Q with (inject_Z 0). rewrite inject_Z_injective. discriminate. }
  split.
  - intros H.
    assert (E : (inject_Z a == inject_Z ((n - 1) * msPerDay))%Q).
    { rewrite inject_Z_mult. unfold Z.sub. rewrite inject_Z_plus.
      rewrite inject_Z_opp. change (inject_Z 1) with 1%Q. rewrite <- H.
      generalize dependent (inject_Z msPerDay). generalize (inject_Z a).
      intros x m Hm _. field. exact Hm. }
    exact (proj1 (inject_Z_injective _ _) E).
  - intros ->. rewrite inject_Z_mult. unfold Z.sub. rewrite inject_Z_plus.
    rewrite inject_Z_opp. change (inject_Z 1) with 1%Q.
    generalize dependent (inject_Z msPerDay). generalize (inject_Z n).
    intros x m Hm. field. exact Hm.
Qed.

(** The span of two instants that are [n - 1] whole days apart is the
    integer [n]; every step of the source's computation is then exact in
    double precision as well. *)
Lemma getCountDaysOnPeriod_whole_days parse dateStart dateEnd s e n :
  DateOfString parse dateStart = Some s ->
  DateOfString parse dateEnd = Some e ->
  e - s = (n - 1) * msPerDay ->
  exists q,
    getCountDaysOnPeriod parse dateStart dateEnd = Some q
    /\ (q == inject_Z n)%Q
    /\ (nonNegativeInteger q <-> s - msPerDay <= e).
Proof.
  intros Hs He Hn. unfold getCountDaysOnPeriod, valueOf. rewrite Hs, He.
  eexists. split; [reflexivity|].
  assert (E : (1 + inject_Z (e - s) / inject_Z (24 * 60 * 60 * 1000)
               == inject_Z n)%Q) by (apply day_span_integer; exact Hn).
  split; [exact E|].
  unfold nonNegativeInteger. split.
  - intros (k & Hk & Ek). apply day_span_integer in Ek.
    unfold msPerDay in *. lia.
  - intros Hle. exists n. split; [unfold msPerDay in *; lia | exact E].
Qed.

(** C9, as amended: for two parseable texts whose instants are a whole
    number [n - 1] of days apart, [getCountDaysOnPeriod] returns the integer
    [n], which is non-negative exactly when the end is at most one day before
    the start; [getCountWeekendsInMonth] returns a non-negative integer for
    every month 1..12 and every year of the Date range. *)
Theorem day_counts_whole_days :
  (forall parse dateStart dateEnd s e n,
      DateOfString parse dateStart = Some s ->
      DateOfString parse dateEnd = Some e ->
      e - s = (n - 1) * msPerDay ->
      exists q,
        getCountDaysOnPeriod parse dateStart dateEnd = Some q
        /\ (q == inject_Z n)%Q
        /\ (nonNegativeInteger q <-> s - msPerDay <= e))
  /\ (forall tza month year,
         zoneInRange tza -> 1 <= month <= 12 -> yearInRange year ->
         exists n, 0 <= n /\ getCountWeekendsInMonth tza month year = Some n).
Proof.
  split.
  - exact getCountDaysOnPeriod_whole_days.
  - intros tza month year Hz Hm Hy.
    exists (weekendDaysInMonth month (fullYear year)). split.
    + unfold weekendDaysInMonth. apply Nat2Z.is_nonneg.
    + apply getCountWeekendsInMonth_counts; assumption.
Qed.

Lemma day_counts_whole_days_witness :
  (DateOfString (Date_parse 0) "2024-02-01T00:00:00.000Z" = Some 1706745600000
   /\ DateOfString (Date_parse 0) "2024-02-12T00:00:00.000Z" = Some 1707696000000
   /\ 1707696000000 - 1706745600000 = (12 - 1) * msPerDay
   /\ exists q,
       getCountDaysOnPeriod (Date_parse 0) "2024-02-01T00:00:00.000Z"
                            "2024-02-12T00:00:00.000Z" = Some q
       /\ (q == inject_Z 12)%Q
       /\ (nonNegativeInteger q <-> 1706745600000 - msPerDay <= 1707696000000))
  /\ (zoneInRange 0 /\ 1 <= 2 <= 12 /\ yearInRange 2024
      /\ exists n, 0 <= n /\ getCountWeekendsInMonth 0 2 2024 = Some n).
Proof.
  assert (Hs : DateOfString (Date_parse 0) "2024-02-01T00:00:00.000Z"
               = Some 1706745600000) by (vm_compute; reflexivity).
  assert (He : DateOfString (Date_parse 0) "2024-02-12T00:00:00.000Z"
               = Some 1707696000000) by (vm_compute; reflexivity).
  assert (Hn : 1707696000000 - 1706745600000 = (12 - 1) * msPerDay)
    by (vm_compute; reflexivity).
  assert (Hz : zoneInRange 0) by (unfold zoneInRange, msPerDay; lia).
  assert (Hm : 1 <= 2 <= 12) by lia.
  assert (Hy : yearInRange 2024) by (unfold yearInRange; lia).
  split.
  - split; [exact Hs | split; [exact He | split; [exact Hn |]]].
    exact (proj1 day_counts_whole_days (Date_parse 0) _ _ _ _ 12 Hs He Hn).
  - split; [exact Hz | split; [exact Hm | split; [exact Hy |]]].
    exact (proj2 day_counts_whole_days 0 2 2024 Hz Hm Hy).
Defined.

(** C9 as stated fails when the end precedes the start, and when the
    instants are not whole days apart: from 12 February to 1 February 2024
    the span is negative (-10), and from 00:00 to 12:00 of 1 February 2024 it
    is 1.5. *)
Lemma getCountDaysOnPeriod_negative :
  (exists q,
      getCountDaysOnPeriod (Date_parse 0) "2024-02-12T00:00:00.000Z"
                           "2024-02-01T00:00:00.000Z" = Some q
      /\ (q == - (10))%Q /\ ~ nonNegativeInteger q)
  /\ (exists q,
         getCountDaysOnPeriod (Date_parse 0) "2024-02-01T00:00:00.000Z"
                              "2024-02-01T12:00:00.000Z" = Some q
         /\ (q == 3 # 2)%Q /\ ~ nonNegativeInteger q).
Proof.
  split.
  - eexists. split; [vm_compute; reflexivity |]. split; [reflexivity |].
    intros (n & Hn & E). unfold Qeq in E. cbn in E. lia.
  - eexists. split; [vm_compute; reflexivity |]. split; [reflexivity |].
    intros (n & Hn & E). unfold Qeq in E. cbn in E. lia.
Qed.

(** ** [getWorkSchedule] *)

Lemma zrange_app lo n m :
  zrange lo (n + m) = (zrange lo n ++ zrange (lo + Z.of_nat n) m)%list.
Proof.
  revert lo. induction n as [| n IH]; intros lo.
  - cbn [zrange Nat.add app]. replace (lo + Z.of_nat 0) with lo by lia.
    reflexivity.
  - cbn [zrange Nat.add app]. rewrite IH.
    replace (lo + Z.of_nat (S n)) with (lo + 1 + Z.of_nat n) by lia.
    reflexivity.
Qed.

Lemma zrange_In lo n j : In j (zrange lo n) <-> lo <= j < lo + Z.of_nat n.
Proof.
  revert lo. induction n as [| n IH]; intros lo.
  - cbn [zrange In]. lia.
  - cbn [zrange In]. rewrite IH. lia.
Qed.

Lemma filter_none {A : Type} (f : A -> bool) (l : list A) :
  (forall a, In a l -> f a = false) -> filter f l = [].
Proof.
  induction l as [| a l IH]; intros H; [reflexivity|].
  cbn [filter]. rewrite (H a (or_introl eq_refl)).
  apply IH. intros b Hb. apply H. now right.
Qed.

Section ScheduleLoop.

Variable tza : Z.
Variables countWorkDays countOffDays : Z.

Lemma schedule_loop_no_start fuel end' count arr :
  schedule_loop tza (S fuel) end' countWorkDays
                (1000 * 60 * 60 * 24 * countOffDays) (NaN, count, arr)
  = Some arr.
Proof. cbn [schedule_loop]. destruct end'; reflexivity. Qed.

Lemma schedule_loop_no_end fuel start count arr :
  schedule_loop tza (S fuel) NaN countWorkDays
                (1000 * 60 * 60 * 24 * countOffDays) (start, count, arr)
  = Some arr.
Proof. reflexivity. Qed.

(** The running time value grows by a day or more on each pass when there
    is at least one day off. *)
Lemma schedule_step_advances s count arr :
  1 <= countOffDays ->
  exists s' count' arr',
    schedule_step tza countWorkDays (1000 * 60 * 60 * 24 * countOffDays)
                  (Some s, count, arr)
    = (Some s', count', arr')
    /\ s + msPerDay <= s'.
Proof.
  intros HO. unfold schedule_step.
  change (1000 * 60 * 60 * 24) with msPerDay.
  destruct (count =? countWorkDays); cbn [num_add num_lift2];
    do 3 eexists; (split; [reflexivity|]); unfold msPerDay; lia.
Qed.

(** So the loop ends: [m] days of distance are covered in [m] passes. *)
Lemma schedule_loop_terminates_from (e : Z) (m : nat) :
  1 <= countOffDays ->
  forall s count arr,
    e - s < Z.of_nat m * msPerDay ->
    exists arr',
      forall fuel, (m < fuel)%nat ->
        schedule_loop tza fuel (Some e) countWorkDays
                      (1000 * 60 * 60 * 24 * countOffDays)
                      (Some s, count, arr) = Some arr'.
Proof.
  intros HO. induction m as [| m IH]; intros s count arr Hm.
  - exists arr. intros [| fuel] Hf; [lia|].
    cbn [schedule_loop num_ge num_test2].
    destruct (Z.geb_spec e s); [lia | reflexivity].
  - destruct (Z.geb_spec e s) as [Hge | Hlt].
    + destruct (schedule_step_advances s count arr HO)
        as (s' & count' & arr1 & Hstep & Hadv).
      destruct (IH s' count' arr1) as (arr' & Harr').
      { unfold msPerDay in *. lia. }
      exists arr'. intros [| fuel] Hf; [lia|].
      cbn [schedule_loop num_ge num_test2].
      destruct (Z.geb_spec e s); [| lia].
      rewrite Hstep. apply Harr'. lia.
    + exists arr. intros [| fuel] Hf; [lia|].
      cbn [schedule_loop num_ge num_test2].
      destruct (Z.geb_spec e s); [lia | reflexivity].
Qed.

Lemma schedule_loop_terminates end' start count arr :
  1 <= countOffDays ->
  exists fuel arr',
    forall fuel', (fuel <= fuel')%nat ->
      schedule_loop tza fuel' end' countWorkDays
                    (1000 * 60 * 60 * 24 * countOffDays)
                    (start, count, arr) = Some arr'.
Proof.
  intros HO. destruct end' as [e |], start as [s |].
  - destruct (schedule_loop_terminates_from e (Z.to_nat (e - s + 1)) HO
                s count arr) as (arr' & H).
    { unfold msPerDay. lia. }
    exists (S (Z.to_nat (e - s + 1))), arr'. intros fuel' Hf. apply H. lia.
  - exists 1%nat, arr. intros [| fuel'] Hf; [lia|].
    apply schedule_loop_no_start.
  - exists 1%nat, arr. intros [| fuel'] Hf; [lia|].
    apply schedule_loop_no_end.
  - exists 1%nat, arr. intros [| fuel'] Hf; [lia|].
    apply schedule_loop_no_end.
Qed.

End ScheduleLoop.

Section ScheduleCycle.

Variable tza : Z.
Variables work off : Z.
Hypothesis work_positive : 1 <= work.
Hypothesis off_positive : 1 <= off.

Lemma mod_cycle_add k i :
  0 <= i -> k mod (work + off) + i < work + off ->
  (k + i) mod (work + off) = k mod (work + off) + i.
Proof.
  intros Hi H. pose proof (Z.mod_pos_bound k (work + off) ltac:(lia)).
  rewrite <- Z.add_mod_idemp_l by lia.
  apply Z.mod_small. lia.
Qed.

Lemma mod_cycle_off_block k :
  k mod (work + off) = work -> (k + off) mod (work + off) = 0.
Proof.
  intros H. rewrite <- Z.add_mod_idemp_l by lia.
  rewrite H. apply Z.mod_same. lia.
Qed.

(** No day of an off block is a working day. *)
Lemma off_block_filtered k n :
  k mod (work + off) = work -> Z.of_nat n <= off ->
  filter (workingDay work off) (zrange k n) = [].
Proof.
  intros Hk Hn. apply filter_none. intros j Hj.
  apply zrange_In in Hj. unfold workingDay.
  replace j with (k + (j - k)) by lia.
  rewrite mod_cycle_add by (rewrite ?Hk; lia).
  apply Z.ltb_ge. lia.
Qed.

(** The loop from day [k] of the cycle, when [m] days remain up to the end:
    it appends the entries of the working days among them.  [count] is the
    position of [k] in the cycle while it is in the work block, and [work] at
    its end. *)
Lemma schedule_loop_cycle (s0 e : Z) (m : nat) :
  forall k count arr,
    m = Z.to_nat ((e - s0) / msPerDay + 1 - k) ->
    0 <= count <= work ->
    k mod (work + off) = count ->
    exists fuel,
      forall fuel', (fuel <= fuel')%nat ->
        schedule_loop tza fuel' (Some e) work (1000 * 60 * 60 * 24 * off)
                      (Some (s0 + k * msPerDay), count, arr)
        = Some (arr ++ map (fun j => schedule_entry tza
                                       (Some (s0 + j * msPerDay)))
                           (filter (workingDay work off) (zrange k m)))%list.
Proof.
  induction m as [m IH] using lt_wf_ind. intros k count arr Hm Hc Hk.
  assert (Hcmp : (e >=? s0 + k * msPerDay) = negb (Nat.eqb m 0)).
  { destruct (Z.geb_spec e (s0 + k * msPerDay)), (Nat.eqb_spec m 0);
      try reflexivity; exfalso; unfold msPerDay in *;
      Z.div_mod_to_equations; lia. }
  destruct (Nat.eqb_spec m 0) as [Hz | Hnz]; cbn [negb] in Hcmp.
  - exists 1%nat. intros [| fuel'] Hf; [lia|].
    cbn [schedule_loop num_ge num_test2]. rewrite Hcmp, Hz.
    cbn [zrange filter map]. rewrite app_nil_r. reflexivity.
  - destruct (Z.eqb_spec count work) as [Hoff | Hwork].
    + (* the off block *)
      set (m' := Z.to_nat ((e - s0) / msPerDay + 1 - (k + off))).
      destruct (IH m' ltac:(lia) (k + off) 0 arr eq_refl ltac:(lia))
        as (fuel & Hfuel).
      { apply mod_cycle_off_block. congruence. }
      exists (S fuel). intros [| fuel'] Hf; [lia|].
      cbn [schedule_loop num_ge num_test2]. rewrite Hcmp.
      unfold schedule_step. rewrite (proj2 (Z.eqb_eq _ _) Hoff).
      cbn [num_add num_lift2].
      change (1000 * 60 * 60 * 24) with msPerDay.
      replace (s0 + k * msPerDay + msPerDay * off)
        with (s0 + (k + off) * msPerDay) by lia.
      rewrite Hfuel by lia. do 3 f_equal.
      destruct (Z_le_gt_dec off (Z.of_nat m)) as [Hle | Hgt].
      * replace m with (Z.to_nat off + m')%nat by (unfold m'; lia).
        rewrite zrange_app, filter_app.
        rewrite (off_block_filtered k (Z.to_nat off))
          by (try congruence; lia).
        rewrite Z2Nat.id by lia. reflexivity.
      * replace m' with 0%nat by (unfold m'; lia).
        rewrite (off_block_filtered k m) by (try congruence; lia).
        reflexivity.
    + (* a working day *)
      assert (Hlt : (pred m < m)%nat) by lia.
      assert (Hm1 : pred m = Z.to_nat ((e - s0) / msPerDay + 1 - (k + 1)))
        by lia.
      assert (Hc1 : 0 <= count + 1 <= work) by lia.
      assert (Hk1 : (k + 1) mod (work + off) = count + 1).
      { rewrite mod_cycle_add; rewrite ?Hk; lia. }
      destruct (IH (pred m) Hlt (k + 1) (count + 1)
                   (arr ++ [schedule_entry tza (Some (s0 + k * msPerDay))])%list
                   Hm1 Hc1 Hk1) as (fuel & Hfuel).
      exists (S fuel). intros [| fuel'] Hf; [lia|].
      cbn [schedule_loop num_ge num_test2]. rewrite Hcmp.
      unfold schedule_step. rewrite (proj2 (Z.eqb_neq _ _) Hwork).
      cbn [num_add num_lift2].
      change (1000 * 60 * 60 * 24) with msPerDay.
      replace (s0 + k * msPerDay + msPerDay)
        with (s0 + (k + 1) * msPerDay) by lia.
      rewrite Hfuel by lia. rewrite <- app_assoc. do 2 f_equal.
      destruct m as [| m1]; [lia|]. cbn [pred zrange filter].
      assert (Hwk : workingDay work off k = true)
        by (unfold workingDay; rewrite Hk; apply Z.ltb_lt; lia).
      rewrite Hwk. reflexivity.
Qed.

End ScheduleCycle.

(** With no working day in the cycle nothing is ever pushed. *)
Lemma schedule_loop_no_work tza countOffDays (e : Z) (m : nat) :
  1 <= countOffDays ->
  forall s arr,
    e - s < Z.of_nat m * msPerDay ->
    forall fuel, (m < fuel)%nat ->
      schedule_loop tza fuel (Some e) 0 (1000 * 60 * 60 * 24 * countOffDays)
                    (Some s, 0, arr) = Some arr.
Proof.
  intros HO. change (1000 * 60 * 60 * 24) with msPerDay.
  induction m as [| m IH]; intros s arr Hm [| fuel] Hf; try lia;
    cbn [schedule_loop num_ge num_test2];
    destruct (Z.geb_spec e s); try reflexivity.
  - lia.
  - unfold schedule_step. cbn [Z.eqb num_add num_lift2].
    apply IH; [unfold msPerDay in *; lia | lia].
Qed.

(** The text pushed for local midnight of day [D] is the calendar date of
    [D]. *)
Lemma schedule_entry_dayText tza D :
  zoneInRange tza -> -99999745 <= D <= 99999744 ->
  schedule_entry tza (Some (MakeDate D 0 - tza)) = dayText D.
Proof.
  intros Hz HD. unfold schedule_entry, dayText, DateOfValue.
  pose proof (local_time_value tza D 0 Hz HD ltac:(unfold msPerDay; lia)) as Hv.
  unfold UTC in Hv. rewrite Hv.
  unfold getDate, getMonth, getFullYear, local_field, option_map.
  rewrite LocalTime_UTC.
  unfold two_digits, zero_prefixed.
  cbn [num_lt num_test2 num_add num_lift2].
  set (t := MakeDate D 0).
  destruct (Z.ltb_spec (MonthFromTime t) 9),
    (Z.ltb_spec (MonthFromTime t + 1) 10); try lia; reflexivity.
Qed.

(** A text with the fields [d], [m], [y] is read as
    [new Date(y, m - 1, d)]. *)
Lemma period_time_reads_as tza text d m y :
  reads_as text d m y ->
  period_time tza text = DateYMD tza (Some y) (Some (m - 1)) (Some d).
Proof.
  intros (sd & sm & sy & Hs & Hd & Hm & Hy).
  unfold period_time, getTime, index. rewrite Hs.
  cbn [nth_error ToNumber]. rewrite Hd, Hm, Hy. reflexivity.
Qed.

Lemma DateYMD_calendarDate tza d m y :
  zoneInRange tza -> calendarDate d m y -> 100 <= y <= 275759 ->
  DateYMD tza (Some y) (Some (m - 1)) (Some d)
  = Some (MakeDate (MakeDay y (m - 1) d) 0 - tza)
  /\ -99999745 <= MakeDay y (m - 1) d <= 99999744
  /\ DateFromTime (MakeDate (MakeDay y (m - 1) d) 0) = d
  /\ MonthFromTime (MakeDate (MakeDay y (m - 1) d) 0) + 1 = m
  /\ YearFromTime (MakeDate (MakeDay y (m - 1) d) 0) = y.
Proof.
  intros Hz [Hm Hd] Hy.
  assert (Hr : yearInRange y) by (unfold yearInRange; lia).
  assert (Hf : fullYear y = y) by (apply fullYear_id; lia).
  split; [| split].
  - rewrite DateYMD_value; rewrite ?Hf; auto; lia.
  - apply (year_days_in_range y); [exact Hr|].
    pose proof (MakeDay_in_year y (m - 1) d ltac:(lia) Hd). lia.
  - destruct (fields_of_MakeDay y (m - 1) d (MakeDate (MakeDay y (m - 1) d) 0))
      as (H1 & H2 & H3);
      [lia | exact Hd | apply Day_MakeDate; unfold msPerDay; lia |].
    repeat split; lia.
Qed.

(** The schedule of a period between two calendar dates. *)
Lemma getWorkSchedule_of_dates tza period W O d1 m1 y1 d2 m2 y2 :
  zoneInRange tza ->
  reads_as (start period) d1 m1 y1 -> reads_as (end_ period) d2 m2 y2 ->
  calendarDate d1 m1 y1 -> calendarDate d2 m2 y2 ->
  100 <= y1 <= 275759 -> 100 <= y2 <= 275759 ->
  1 <= W -> 1 <= O ->
  exists fuel,
    forall fuel', (fuel <= fuel')%nat ->
      getWorkSchedule tza fuel' period W O
      = Some (Returned
                (map (fun k => dayText (MakeDay y1 (m1 - 1) d1 + k))
                     (cycleDays W O
                        (Z.to_nat (MakeDay y2 (m2 - 1) d2
                                   - MakeDay y1 (m1 - 1) d1 + 1))))).
Proof.
  intros Hz Hs He Hc1 Hc2 Hy1 Hy2 HW HO.
  destruct (DateYMD_calendarDate tza d1 m1 y1 Hz Hc1 Hy1) as (Hv1 & Hr1 & _).
  destruct (DateYMD_calendarDate tza d2 m2 y2 Hz Hc2 Hy2) as (Hv2 & Hr2 & _).
  set (D1 := MakeDay y1 (m1 - 1) d1) in *.
  set (D2 := MakeDay y2 (m2 - 1) d2) in *.
  assert (Hn : (MakeDate D2 0 - tza - (MakeDate D1 0 - tza)) / msPerDay
               = D2 - D1).
  { unfold MakeDate, msPerDay. Z.div_mod_to_equations. lia. }
  destruct (schedule_loop_cycle tza W O HW HO (MakeDate D1 0 - tza)
              (MakeDate D2 0 - tza) (Z.to_nat (D2 - D1 + 1)) 0 0 [])
    as (fuel & Hfuel).
  { rewrite Hn. f_equal. lia. }
  { lia. }
  { apply Z.mod_0_l. lia. }
  exists fuel. intros fuel' Hf. unfold getWorkSchedule. cbv zeta.
  rewrite (period_time_reads_as tza _ _ _ _ Hs), Hv1.
  rewrite (period_time_reads_as tza _ _ _ _ He), Hv2.
  specialize (Hfuel fuel' Hf). cbv zeta in Hfuel.
  rewrite Z.mul_0_l, Z.add_0_r in Hfuel.
  refine (eq_trans (f_equal (option_map Returned) Hfuel) _).
  cbn [option_map app]. do 2 f_equal. unfold cycleDays.
  apply map_ext_in. intros k Hk.
  apply filter_In in Hk. destruct Hk as [Hk _]. apply zrange_In in Hk.
  replace (MakeDate D1 0 - tza + k * msPerDay)
    with (MakeDate (D1 + k) 0 - tza) by (unfold MakeDate; lia).
  apply schedule_entry_dayText; [assumption | lia].
Qed.



(** C5 at its failing inputs: the year of a period's text goes through
    [new Date(year, ..)], which reads 0..99 as 1900..1999, and is printed
    without padding.  The schedule of 01-01-0050..02-01-0050 holds only
    01-01-1950, a date outside the period, and the schedule of the single day
    01-01-0999 is 01-01-999, which is not of the form DD-MM-YYYY. *)
Theorem getWorkSchedule_early_years :
  getWorkSchedule 0 8 {| start := "01-01-0050"; end_ := "02-01-0050" |} 1 1
  = Some (Returned ["01-01-1950"])
  /\ getWorkSchedule 0 8 {| start := "01-01-0999"; end_ := "01-01-0999" |} 1 1
     = Some (Returned ["01-01-999"]).
Proof. split; vm_compute; reflexivity. Qed.

(** With a negative [countWorkDays] the counter never meets it, so every
    pass pushes a day, whatever [millisecondsInOffDays] is. *)
Lemma schedule_loop_every_day tza W off (s0 e : Z) (m : nat) :
  W < 0 ->
  forall k count arr,
    m = Z.to_nat ((e - s0) / msPerDay + 1 - k) ->
    0 <= count ->
    forall fuel, (m < fuel)%nat ->
      schedule_loop tza fuel (Some e) W off
                    (Some (s0 + k * msPerDay), count, arr)
      = Some (arr ++ map (fun j => schedule_entry tza
                                     (Some (s0 + j * msPerDay)))
                         (zrange k m))%list.
Proof.
  intros HW. induction m as [| m IH]; intros k count arr Hm Hc [| fuel] Hf;
    try lia; cbn [schedule_loop num_ge num_test2].
  - destruct (Z.geb_spec e (s0 + k * msPerDay)) as [Hge | Hlt].
    + exfalso. unfold msPerDay in *. Z.div_mod_to_equations. lia.
    + cbn [zrange map]. rewrite app_nil_r. reflexivity.
  - destruct (Z.geb_spec e (s0 + k * msPerDay)) as [Hge | Hlt].
    + unfold schedule_step.
      rewrite (proj2 (Z.eqb_neq count W)) by lia.
      cbn [num_add num_lift2]. change (1000 * 60 * 60 * 24) with msPerDay.
      replace (s0 + k * msPerDay + msPerDay)
        with (s0 + (k + 1) * msPerDay) by lia.
      rewrite (IH (k + 1) (count + 1)) by lia.
      rewrite <- app_assoc. reflexivity.
    + exfalso. unfold msPerDay in *. Z.div_mod_to_equations. lia.
Qed.

(** With [countWorkDays >= 1] and no day off, the pass that follows a full
    work block adds nothing to the running time value: every day is pushed,
    in at most two passes a day. *)
Lemma schedule_loop_no_day_off tza W (s0 e : Z) (m : nat) :
  1 <= W ->
  forall k count arr,
    m = Z.to_nat ((e - s0) / msPerDay + 1 - k) ->
    0 <= count <= W ->
    forall fuel, (2 * m < fuel)%nat ->
      schedule_loop tza fuel (Some e) W (1000 * 60 * 60 * 24 * 0)
                    (Some (s0 + k * msPerDay), count, arr)
      = Some (arr ++ map (fun j => schedule_entry tza
                                     (Some (s0 + j * msPerDay)))
                         (zrange k m))%list.
Proof.
  intros HW. induction m as [| m IH]; intros k count arr Hm Hc [| fuel] Hf;
    try lia; cbn [schedule_loop num_ge num_test2].
  - destruct (Z.geb_spec e (s0 + k * msPerDay)) as [Hge | Hlt].
    + exfalso. unfold msPerDay in *. Z.div_mod_to_equations. lia.
    + cbn [zrange map]. rewrite app_nil_r. reflexivity.
  - assert (Hpush : forall fuel1 count1,
               0 <= count1 < W -> (2 * m < fuel1)%nat ->
               schedule_loop tza fuel1 (Some e) W (1000 * 60 * 60 * 24 * 0)
                 (schedule_step tza W (1000 * 60 * 60 * 24 * 0)
                                (Some (s0 + k * msPerDay), count1, arr))
               = Some (arr ++ map (fun j => schedule_entry tza
                                              (Some (s0 + j * msPerDay)))
                                  (zrange k (S m)))%list).
    { intros fuel1 count1 Hc1 Hf1. unfold schedule_step.
      rewrite (proj2 (Z.eqb_neq count1 W)) by lia.
      cbn [num_add num_lift2]. change (1000 * 60 * 60 * 24) with msPerDay.
      replace (s0 + k * msPerDay + msPerDay)
        with (s0 + (k + 1) * msPerDay) by lia.
      rewrite (IH (k + 1) (count1 + 1)) by lia.
      rewrite <- app_assoc. reflexivity. }
    destruct (Z.geb_spec e (s0 + k * msPerDay)) as [Hge | Hlt].
    + destruct (Z.eq_dec count W) as [Heq | Hne].
      * destruct fuel as [| fuel]; [lia|].
        assert (Hstep : schedule_step tza W (1000 * 60 * 60 * 24 * 0)
                          (Some (s0 + k * msPerDay), count, arr)
                        = (Some (s0 + k * msPerDay), 0, arr)).
        { unfold schedule_step. rewrite (proj2 (Z.eqb_eq count W) Heq).
          cbn [num_add num_lift2]. do 3 f_equal. lia. }
        rewrite Hstep. cbn [schedule_loop num_ge num_test2].
        destruct (Z.geb_spec e (s0 + k * msPerDay)); [| lia].
        apply Hpush; lia.
      * apply Hpush; lia.
    + exfalso. unfold msPerDay in *. Z.div_mod_to_equations. lia.
Qed.

(** With [countWorkDays = 0] and no positive [countOffDays] the running
    time value never moves forward and the counter stays 0: once entered,
    the loop is never left. *)
Lemma schedule_loop_stuck tza O (e : Z) :
  O <= 0 ->
  forall fuel s arr,
    s <= e ->
    schedule_loop tza fuel (Some e) 0 (1000 * 60 * 60 * 24 * O)
                  (Some s, 0, arr) = None.
Proof.
  intros HO. induction fuel as [| fuel IH]; intros s arr Hs; [reflexivity|].
  cbn [schedule_loop num_ge num_test2].
  destruct (Z.geb_spec e s); [| lia].
  unfold schedule_step. cbn [Z.eqb num_add num_lift2].
  apply IH. lia.
Qed.

(** C6, as amended: [getWorkSchedule] has no check of its counts.  For a
    period whose start and end are read as the time values [s] and [e]:
    with [countWorkDays < 0] (whatever [countOffDays] is), and with
    [countWorkDays >= 1] and [countOffDays = 0], it returns the text of every
    day from [s] up to [e]; with [countWorkDays = 0] and [countOffDays >= 1]
    it returns the empty array; with [countWorkDays = 0], [countOffDays <= 0]
    and [s <= e] the loop never ends, so nothing is returned or raised. *)
Theorem getWorkSchedule_unchecked_counts tza period W O s e :
  period_time tza (start period) = Some s ->
  period_time tza (end_ period) = Some e ->
  (W < 0 \/ (1 <= W /\ O = 0) ->
   exists fuel,
     forall fuel', (fuel <= fuel')%nat ->
       getWorkSchedule tza fuel' period W O
       = Some (Returned
                 (map (fun k => schedule_entry tza (Some (s + k * msPerDay)))
                      (zrange 0 (Z.to_nat ((e - s) / msPerDay + 1))))))
  /\ (W = 0 -> 1 <= O ->
      exists fuel,
        forall fuel', (fuel <= fuel')%nat ->
          getWorkSchedule tza fuel' period W O = Some (Returned []))
  /\ (W = 0 -> O <= 0 -> s <= e ->
      forall fuel, getWorkSchedule tza fuel period W O = None).
Proof.
  intros Hs He. unfold getWorkSchedule. cbv zeta. rewrite Hs, He.
  set (m := Z.to_nat ((e - s) / msPerDay + 1)).
  assert (Hm : m = Z.to_nat ((e - s) / msPerDay + 1 - 0))
    by (unfold m; f_equal; lia).
  split; [| split].
  - intros [HW | [HW ->]].
    + exists (S m). intros fuel' Hf.
      pose proof (schedule_loop_every_day tza W (1000 * 60 * 60 * 24 * O)
                    s e m HW 0 0 [] Hm ltac:(lia) fuel' ltac:(lia)) as H.
      rewrite Z.mul_0_l, Z.add_0_r in H.
      refine (eq_trans (f_equal (option_map Returned) H) _). reflexivity.
    + exists (S (2 * m)). intros fuel' Hf.
      pose proof (schedule_loop_no_day_off tza W s e m HW 0 0 [] Hm
                    ltac:(lia) fuel' ltac:(lia)) as H.
      rewrite Z.mul_0_l, Z.add_0_r in H.
      refine (eq_trans (f_equal (option_map Returned) H) _). reflexivity.
  - intros -> HO. exists (S (Z.to_nat (e - s + 1))). intros fuel' Hf.
    rewrite (schedule_loop_no_work tza O e (Z.to_nat (e - s + 1)) HO);
      [reflexivity | unfold msPerDay; lia | lia].
  - intros -> HO Hle fuel.
    refine (eq_trans (f_equal (option_map Returned)
                        (schedule_loop_stuck tza O e HO fuel s [] Hle)) _).
    reflexivity.
Qed.

Lemma getWorkSchedule_unchecked_counts_witness :
  period_time 0 "01-01-2024" = Some 1704067200000
  /\ period_time 0 "03-01-2024" = Some 1704240000000
  /\ (-1 < 0 \/ (1 <= -1 /\ 5 = 0))
  /\ exists fuel,
      forall fuel', (fuel <= fuel')%nat ->
        getWorkSchedule 0 fuel'
                        {| start := "01-01-2024"; end_ := "03-01-2024" |}
                        (-1) 5
        = Some (Returned ["01-01-2024"; "02-01-2024"; "03-01-2024"]).
Proof.
  assert (Hs : period_time 0 "01-01-2024" = Some 1704067200000)
    by (vm_compute; reflexivity).
  assert (He : period_time 0 "03-01-2024" = Some 1704240000000)
    by (vm_compute; reflexivity).
  assert (HW : -1 < 0 \/ (1 <= -1 /\ 5 = 0)) by (left; lia).
  split; [exact Hs | split; [exact He | split; [exact HW |]]].
  exact (proj1 (getWorkSchedule_unchecked_counts 0
                  {| start := "01-01-2024"; end_ := "03-01-2024" |}
                  (-1) 5 1704067200000 1704240000000 Hs He) HW).
Defined.

(** C6 as stated fails: with [countWorkDays = 0] the call returns the empty
    array instead of raising InvalidArgument. *)
Lemma getWorkSchedule_accepts_zero_work_days :
  getWorkSchedule 0 8 {| start := "01-01-2024"; end_ := "03-01-2024" |} 0 1
  = Some (Returned [])
  /\ forall r,
      getWorkSchedule 0 8 {| start := "01-01-2024"; end_ := "03-01-2024" |} 0 1
      = Some r -> ~ raises r InvalidArgument.
Proof.
  split; [vm_compute; reflexivity |].
  intros r. vm_compute. intros [= <-]. discriminate.
Qed.

(** C10: for [countWorkDays >= 1] and [countOffDays >= 1] the loop of
    [getWorkSchedule] ends and an array is returned, for every period; each
    pass moves the running time value forward by one day or more. *)
Theorem getWorkSchedule_terminates tza period W O :
  1 <= W -> 1 <= O ->
  (exists fuel arr,
      forall fuel', (fuel <= fuel')%nat ->
        getWorkSchedule tza fuel' period W O = Some (Returned arr))
  /\ (forall s count arr,
         exists s' count' arr',
           schedule_step tza W (1000 * 60 * 60 * 24 * O) (Some s, count, arr)
           = (Some s', count', arr')
           /\ s + msPerDay <= s').
Proof.
  intros HW HO. split.
  - destruct (schedule_loop_terminates tza W O
                (period_time tza (end_ period))
                (period_time tza (start period)) 0 [] HO)
      as (fuel & arr & H).
    exists fuel, arr. intros fuel' Hf. unfold getWorkSchedule. cbv zeta.
    refine (eq_trans (f_equal (option_map Returned) (H fuel' Hf)) _).
    reflexivity.
  - intros s count arr. apply schedule_step_advances. exact HO.
Qed.

Lemma getWorkSchedule_terminates_witness :
  1 <= 2 /\ 1 <= 5
  /\ (exists fuel arr,
         forall fuel', (fuel <= fuel')%nat ->
           getWorkSchedule 0 fuel'
                           {| start := "20-12-2023"; end_ := "10-01-2024" |} 2 5
           = Some (Returned arr))
  /\ (forall s count arr,
         exists s' count' arr',
           schedule_step 0 2 (1000 * 60 * 60 * 24 * 5) (Some s, count, arr)
           = (Some s', count', arr')
           /\ s + msPerDay <= s').
Proof.
  assert (HW : 1 <= 2) by lia.
  assert (HO : 1 <= 5) by lia.
  split; [exact HW | split; [exact HO |]].
  exact (getWorkSchedule_terminates 0
           {| start := "20-12-2023"; end_ := "10-01-2024" |} 2 5 HW HO).
Defined.

(** * Further properties of the source *)

(** ** [getTime] *)

(** A property of all integers of a finite range, by enumeration. *)
Lemma zrange_forallb (f : Z -> bool) lo n :
  forallb f (zrange lo n) = true ->
  forall k, lo <= k < lo + Z.of_nat n -> f k = true.
Proof.
  intros H k Hk. rewrite forallb_forall in H. apply H, zrange_In, Hk.
Qed.

(** Below 100 the padded text has two characters and reads back as the
    number. *)
Lemma two_digits_round_trip n :
  0 <= n < 100 ->
  String.length (two_digits n) = 2%nat
  /\ digits_value 0 (two_digits n) = Some n.
Proof.
  intros Hn.
  pose (ok := fun k =>
          Nat.eqb (String.length (two_digits k)) 2
          && match digits_value 0 (two_digits k) with
             | Some m => m =? k
             | None => false
             end).
  assert (H : ok n = true).
  { apply (zrange_forallb ok 0 100); [vm_compute; reflexivity | lia]. }
  unfold ok in H. apply andb_true_iff in H. destruct H as [H1 H2].
  split; [now apply Nat.eqb_eq|].
  destruct (digits_value 0 (two_digits n)); [| discriminate].
  f_equal. now apply Z.eqb_eq.
Qed.

Lemma padded_is_two_digits n :
  (if num_ge (Some n) (Some 10)
   then numToString (Some n) else zero_prefixed (Some n))
  = two_digits n.
Proof.
  unfold two_digits, zero_prefixed. cbn [num_ge num_test2].
  destruct (Z.geb_spec n 10), (Z.ltb_spec n 10); try lia; reflexivity.
Qed.

(** X1: For every valid Date, [getTime] is [HH:MM:SS]: three fields of two
    characters each that read back as the local hour (0..23), minute (0..59)
    and second (0..59) of the Date. *)
Theorem getTime_fields tza t :
  exists hh mm ss,
    Formatting.getTime tza (Some t) = hh ++ ":" ++ mm ++ ":" ++ ss
    /\ String.length hh = 2%nat /\ String.length mm = 2%nat
    /\ String.length ss = 2%nat
    /\ digits_value 0 hh = Some (HourFromTime (LocalTime tza t))
    /\ digits_value 0 mm = Some (MinFromTime (LocalTime tza t))
    /\ digits_value 0 ss = Some (SecFromTime (LocalTime tza t))
    /\ 0 <= HourFromTime (LocalTime tza t) <= 23
    /\ 0 <= MinFromTime (LocalTime tza t) <= 59
    /\ 0 <= SecFromTime (LocalTime tza t) <= 59.
Proof.
  set (u := LocalTime tza t).
  assert (Hh : 0 <= HourFromTime u < 24) by (apply Z.mod_pos_bound; lia).
  assert (Hm : 0 <= MinFromTime u < 60) by (apply Z.mod_pos_bound; lia).
  assert (Hs : 0 <= SecFromTime u < 60) by (apply Z.mod_pos_bound; lia).
  exists (two_digits (HourFromTime u)), (two_digits (MinFromTime u)),
    (two_digits (SecFromTime u)).
  destruct (two_digits_round_trip (HourFromTime u)) as [L1 R1]; [lia|].
  destruct (two_digits_round_trip (MinFromTime u)) as [L2 R2]; [lia|].
  destruct (two_digits_round_trip (SecFromTime u)) as [L3 R3]; [lia|].
  split.
  - unfold Formatting.getTime, getHours, getMinutes, getSeconds, local_field,
      option_map. fold u. rewrite !padded_is_two_digits. reflexivity.
  - repeat (split; [assumption || lia |]). lia.
Qed.

(** ** [getDayName] *)

Lemma day_name_cases w :
  0 <= w < 7 -> w = 0 \/ w = 1 \/ w = 2 \/ w = 3 \/ w = 4 \/ w = 5 \/ w = 6.
Proof. lia. Qed.

(** X2: [getDayName] is undefined exactly for a text that does not give a valid
    Date; otherwise it is the entry of the table for the UTC weekday. *)
Theorem getDayName_defined parse date :
  (getDayName parse date = None <-> DateOfString parse date = NaN)
  /\ forall t, DateOfString parse date = Some t ->
       exists name, getDayName parse date = Some name
                    /\ In (WeekDay t, name) days.
Proof.
  unfold getDayName, getUTCDay.
  destruct (DateOfString parse date) as [t |]; cbn [option_map property_of].
  - pose proof (WeekDay_range t) as Hw. apply day_name_cases in Hw.
    assert (H : exists name, property days (WeekDay t) = Some name
                             /\ In (WeekDay t, name) days).
    { repeat (destruct Hw as [Hw | Hw]); rewrite Hw;
        eexists; (split; [reflexivity |]); cbn; tauto. }
    destruct H as (name & Hn & Hin). split.
    + rewrite Hn. split; discriminate.
    + intros t' [= <-]. exists name. split; assumption.
  - split; [split; reflexivity | discriminate].
Qed.

(** X3: Two parseable texts get the same name exactly when their UTC days are a
    whole number of weeks apart. *)
Theorem getDayName_same_weekday parse date1 date2 t1 t2 :
  DateOfString parse date1 = Some t1 ->
  DateOfString parse date2 = Some t2 ->
  (getDayName parse date1 = getDayName parse date2
   <-> (Day t1 - Day t2) mod 7 = 0).
Proof.
  intros H1 H2. unfold getDayName, getUTCDay. rewrite H1, H2.
  cbn [option_map property_of].
  assert (E : (Day t1 - Day t2) mod 7 = 0 <-> WeekDay t1 = WeekDay t2).
  { unfold WeekDay. split; intros H; Z.div_mod_to_equations; lia. }
  rewrite E.
  pose proof (WeekDay_range t1) as Hw1. apply day_name_cases in Hw1.
  pose proof (WeekDay_range t2) as Hw2. apply day_name_cases in Hw2.
  repeat (destruct Hw1 as [Hw1 | Hw1]); rewrite Hw1;
    repeat (destruct Hw2 as [Hw2 | Hw2]); rewrite Hw2;
    cbn; split; intros H; try reflexivity; try discriminate.
Qed.

Lemma getDayName_same_weekday_witness :
  DateOfString (Date_parse 0) "2024-01-30T00:00:00.000Z" = Some 1706572800000
  /\ DateOfString (Date_parse 0) "2024-02-06T00:00:00.000Z" = Some 1707177600000
  /\ (getDayName (Date_parse 0) "2024-01-30T00:00:00.000Z"
      = getDayName (Date_parse 0) "2024-02-06T00:00:00.000Z"
      <-> (Day 1706572800000 - Day 1707177600000) mod 7 = 0).
Proof.
  assert (H1 : DateOfString (Date_parse 0) "2024-01-30T00:00:00.000Z"
               = Some 1706572800000) by (vm_compute; reflexivity).
  assert (H2 : DateOfString (Date_parse 0) "2024-02-06T00:00:00.000Z"
               = Some 1707177600000) by (vm_compute; reflexivity).
  split; [exact H1 | split; [exact H2 |]].
  exact (getDayName_same_weekday (Date_parse 0) _ _ _ _ H1 H2).
Defined.

(** ** [getCountDaysInMonth] *)

(** Months beyond 0..11 are carried into the year. *)
Lemma MakeDay_carry y m dt : MakeDay y m dt = MakeDay (y + m / 12) (m mod 12) dt.
Proof.
  unfold MakeDay.
  replace (m mod 12 / 12) with 0 by (Z.div_mod_to_equations; lia).
  rewrite Z.mod_mod by lia. rewrite Z.add_0_r. reflexivity.
Qed.

(** The day before the first of a month is the last day of the month before
    it, which is December of the year before for January. *)
Lemma MakeDay_day_before y mn :
  0 <= mn <= 11 ->
  MakeDay y mn 0
  = MakeDay (y + (mn - 1) / 12) ((mn - 1) mod 12)
            (DaysInMonth (y + (mn - 1) / 12) ((mn - 1) mod 12)).
Proof.
  intros Hm. destruct (Z.eq_dec mn 0) as [-> | Hnz].
  - change ((0 - 1) / 12) with (-1). change ((0 - 1) mod 12) with 11.
    rewrite !MakeDay_month by lia.
    replace y with (y + -1 + 1) at 1 by lia. rewrite DayFromYear_succ.
    replace (y + -1 + 1) with y by lia.
    unfold DaysInMonth, DaysBeforeMonth.
    destruct (DaysInYear_cases (y + -1)) as [E | E]; rewrite E;
      destruct (DaysInYear y =? 366); cbn; lia.
  - replace ((mn - 1) / 12) with 0 by (Z.div_mod_to_equations; lia).
    replace ((mn - 1) mod 12) with (mn - 1) by (Z.div_mod_to_equations; lia).
    rewrite Z.add_0_r, !MakeDay_month by lia.
    replace mn with (mn - 1 + 1) at 1 by lia.
    rewrite (DaysBeforeMonth_next _ y) by (auto; lia). lia.
Qed.

Lemma month_day_time_value tza y mn dt :
  zoneInRange tza -> yearInRange y -> 0 <= mn <= 11 ->
  1 <= dt <= DaysInMonth y mn ->
  TimeClip (UTC tza (MakeDate (MakeDay y mn dt) 0))
  = Some (MakeDate (MakeDay y mn dt) 0 - tza).
Proof.
  intros Hz Hy Hm Hd.
  apply local_time_value; [assumption | | unfold msPerDay; lia].
  apply (year_days_in_range y); [assumption|].
  pose proof (MakeDay_in_year y mn dt Hm Hd). lia.
Qed.

(** [getCountDaysInMonth] for an arbitrary integral month: the month before
    month number [month] (counted from 0 in [year], carrying into the
    neighbouring years) is measured. *)
Lemma getCountDaysInMonth_any_month tza month year :
  zoneInRange tza ->
  yearInRange (fullYear year + month / 12) ->
  yearInRange (fullYear year + (month - 1) / 12) ->
  getCountDaysInMonth tza month year
  = Some (DaysInMonth (fullYear year + (month - 1) / 12) ((month - 1) mod 12)).
Proof.
  intros Hz Hy1 Hy0. unfold getCountDaysInMonth.
  destruct (Z.eqb_spec month 12) as [-> | Hne]; [reflexivity|].
  set (Y := fullYear year) in *.
  set (y1 := Y + month / 12) in *. set (m1 := month mod 12).
  assert (Hm1 : 0 <= m1 <= 11) by (unfold m1; Z.div_mod_to_equations; lia).
  set (y0 := Y + (month - 1) / 12) in *. set (m0 := (month - 1) mod 12).
  assert (Hm0 : 0 <= m0 <= 11) by (unfold m0; Z.div_mod_to_equations; lia).
  assert (Hprev : y0 = y1 + (m1 - 1) / 12 /\ m0 = (m1 - 1) mod 12).
  { unfold y0, y1, m0, m1. Z.div_mod_to_equations. lia. }
  destruct Hprev as [Hy0' Hm0'].
  pose proof (DaysInMonth_range y1 m1) as Hr1.
  pose proof (DaysInMonth_range y0 m0) as Hr0.
  unfold DateYM, DateYMD. fold Y. change (MakeTime 0 0 0 0) with 0.
  rewrite (MakeDay_carry Y month 1). fold y1 m1.
  rewrite (month_day_time_value tza y1 m1 1) by (auto; lia).
  set (t := MakeDate (MakeDay y1 m1 1) 0).
  assert (Hday : Day t = MakeDay y1 m1 1)
    by (apply Day_MakeDate; unfold msPerDay; lia).
  destruct (fields_of_MakeDay y1 m1 1 t Hm1 ltac:(lia) Hday)
    as (Hyr & Hmo & Hdt).
  unfold getDate at 2, local_field, option_map.
  rewrite LocalTime_UTC, Hdt. cbn [num_sub num_lift2].
  unfold setDate. rewrite LocalTime_UTC, Hyr, Hmo.
  replace (TimeWithinDay t) with 0
    by (symmetry; apply TimeWithinDay_MakeDate; unfold msPerDay; lia).
  change (1 - 1) with 0. rewrite (MakeDay_day_before y1 m1 Hm1).
  rewrite <- Hy0', <- Hm0'.
  pose proof (month_day_time_value tza y0 m0 (DaysInMonth y0 m0) Hz Hy0 Hm0
                ltac:(lia)) as Hv.
  rewrite Hv. unfold DateOfValue.
  destruct (TimeClip_Some _ _ Hv) as [_ Hb].
  unfold UTC in Hb. rewrite (TimeClip_ok _ Hb).
  unfold getDate, local_field, option_map. rewrite LocalTime_UTC.
  f_equal.
  eapply fields_of_MakeDay; [| | apply Day_MakeDate; unfold msPerDay; lia]; lia.
Qed.

(** X4: For a month 1..12 and a year of the Date range, [getCountDaysInMonth]
    returns the length of that month in the year that [new Date(year, ..)]
    denotes: the year itself, unless it is 0..99. *)
Theorem getCountDaysInMonth_length tza month year :
  zoneInRange tza -> yearInRange year -> 1 <= month <= 12 ->
  getCountDaysInMonth tza month year
  = Some (DaysInMonth (fullYear year) (month - 1))
  /\ (~ 0 <= year <= 99 ->
      getCountDaysInMonth tza month year = Some (DaysInMonth year (month - 1))).
Proof.
  intros Hz Hy Hm.
  assert (H : getCountDaysInMonth tza month year
              = Some (DaysInMonth (fullYear year) (month - 1))).
  { unfold getCountDaysInMonth.
    destruct (Z.eqb_spec month 12) as [-> | Hne]; [reflexivity|].
    apply month_length_by_setDate; auto; lia. }
  split; [exact H|]. intros Hn. rewrite H. now rewrite fullYear_id.
Qed.


Lemma getCountDaysInMonth_length_witness :
  zoneInRange 0 /\ yearInRange 2023 /\ 1 <= 2 <= 12
  /\ getCountDaysInMonth 0 2 2023 = Some (DaysInMonth (fullYear 2023) (2 - 1))
  /\ (~ 0 <= 2023 <= 99 ->
      getCountDaysInMonth 0 2 2023 = Some (DaysInMonth 2023 (2 - 1))).
Proof.
  assert (Hz : zoneInRange 0) by (unfold zoneInRange, msPerDay; lia).
  assert (Hy : yearInRange 2023) by (unfold yearInRange; lia).
  assert (Hm : 1 <= 2 <= 12) by lia.
  split; [exact Hz | split; [exact Hy | split; [exact Hm |]]].
  exact (getCountDaysInMonth_length 0 2 2023 Hz Hy Hm).
Defined.


(** ** [isLeapYear] *)

(** The remainder of the source ([%], sign of the dividend) is 0 exactly when
    the floored one is. *)
Lemma rem_zero_iff y n : 0 < n -> (Z.rem y n =? 0) = (y mod n =? 0).
Proof.
  intros Hn.
  destruct (Z.eqb_spec (Z.rem y n) 0) as [Hr | Hr],
    (Z.eqb_spec (y mod n) 0) as [Hm | Hm]; try reflexivity; exfalso.
  - apply Z.rem_divide in Hr; [| lia]. apply Hm, Z.mod_divide; [lia | exact Hr].
  - apply Hr, Z.rem_divide; [lia|]. apply Z.mod_divide in Hm; [exact Hm | lia].
Qed.

Lemma isLeapYear_DaysInYear tza t :
  isLeapYear tza (Some t) = (DaysInYear (YearFromTime (LocalTime tza t)) =? 366).
Proof.
  unfold isLeapYear, getFullYear, local_field, option_map, DaysInYear.
  cbn [num_rem num_lift2 num_seq num_test2].
  rewrite !rem_zero_iff by lia.
  set (y := YearFromTime (LocalTime tza t)).
  destruct (Z.eqb_spec (y mod 400) 0), (Z.eqb_spec (y mod 4) 0),
    (Z.eqb_spec (y mod 100) 0); cbn; try reflexivity; exfalso;
    Z.div_mod_to_equations; lia.
Qed.

(** X6: [isLeapYear] holds exactly for the Dates whose local year has 366 days in
    the calendar of the platform, also for the years before year 1. *)
Theorem isLeapYear_calendar tza t :
  isLeapYear tza (Some t) = true
  <-> DayFromYear (YearFromTime (LocalTime tza t) + 1)
      - DayFromYear (YearFromTime (LocalTime tza t)) = 366.
Proof.
  rewrite isLeapYear_DaysInYear, DayFromYear_succ, Z.eqb_eq. lia.
Qed.

(** X7: February has 29 days by [getCountDaysInMonth] exactly when [isLeapYear]
    holds for the Dates of that year (years of the Date range from 100
    on). *)
Theorem february_length_and_isLeapYear tza d m y :
  zoneInRange tza -> calendarDate d m y -> 100 <= y <= 275759 ->
  (getCountDaysInMonth tza 2 y = Some 29
   <-> isLeapYear tza (DateYMD tza (Some y) (Some (m - 1)) (Some d)) = true)
  /\ (getCountDaysInMonth tza 2 y = Some 28
      <-> isLeapYear tza (DateYMD tza (Some y) (Some (m - 1)) (Some d)) = false).
Proof.
  intros Hz Hc Hy.
  destruct (DateYMD_calendarDate tza d m y Hz Hc Hy) as (Hv & _ & _ & _ & Hyr).
  assert (Hr : yearInRange y) by (unfold yearInRange; lia).
  assert (Hlen : getCountDaysInMonth tza 2 y = Some (DaysInMonth y 1)).
  { unfold getCountDaysInMonth. cbn [Z.eqb Pos.eqb].
    rewrite (month_length_by_setDate tza y 2 Hz Hr) by lia.
    rewrite fullYear_id by lia. reflexivity. }
  rewrite Hlen, Hv, isLeapYear_DaysInYear, LocalTime_UTC, Hyr.
  unfold DaysInMonth. destruct (DaysInYear y =? 366); split; split;
    intros H; try reflexivity; discriminate.
Qed.

(** ** [getQuarter] *)

Lemma MonthFromTime_range t : 0 <= MonthFromTime t <= 11.
Proof.
  unfold MonthFromTime.
  repeat match goal with
         | |- context [if ?c then _ else _] => destruct c
         end; lia.
Qed.

(** X8: For every valid Date the quarter is 1..4 and covers the local month:
    months 0..2 give 1, 3..5 give 2, 6..8 give 3 and 9..11 give 4. *)
Theorem getQuarter_partition tza t :
  1 <= getQuarter tza (Some t) <= 4
  /\ 3 * (getQuarter tza (Some t) - 1)
     <= MonthFromTime (LocalTime tza t)
     < 3 * getQuarter tza (Some t).
Proof.
  unfold getQuarter, getMonth, local_field, option_map.
  cbn [num_lt num_test2].
  pose proof (MonthFromTime_range (LocalTime tza t)) as Hm.
  destruct (Z.ltb_spec (MonthFromTime (LocalTime tza t)) 3);
    [lia|].
  destruct (Z.ltb_spec (MonthFromTime (LocalTime tza t)) 6); [lia|].
  destruct (Z.ltb_spec (MonthFromTime (LocalTime tza t)) 9); lia.
Qed.


(** ** [isDateInPeriod] *)

(** X10: With a parseable start and end, both ends belong to the period exactly
    when the start is not after the end; a period whose end is before its
    start contains no date at all. *)
Theorem isDateInPeriod_endpoints parse period s e :
  DateOfString parse (start period) = Some s ->
  DateOfString parse (end_ period) = Some e ->
  (isDateInPeriod parse (start period) period = true <-> s <= e)
  /\ (isDateInPeriod parse (end_ period) period = true <-> s <= e)
  /\ (e < s -> forall date, isDateInPeriod parse date period = false).
Proof.
  intros Hs He. unfold isDateInPeriod, valueOf. rewrite Hs, He.
  cbn [num_ge num_le num_test2]. split; [| split].
  - rewrite andb_true_iff, Z.leb_le, Z.geb_le. lia.
  - rewrite andb_true_iff, Z.leb_le, Z.geb_le. lia.
  - intros Hlt date. destruct (DateOfString parse date) as [d |];
      cbn [num_ge num_le num_test2]; [| reflexivity].
    apply andb_false_iff. rewrite Z.leb_gt.
    destruct (Z.geb_spec d s); [right; lia | left; reflexivity].
Qed.

(** [isDateInPeriod] is true only when all three texts are parseable, and
    then exactly when the instant lies between the two ends, both
    included. *)
Lemma isDateInPeriod_between parse date period :
  isDateInPeriod parse date period = true
  <-> exists d s e,
        DateOfString parse date = Some d
        /\ DateOfString parse (start period) = Some s
        /\ DateOfString parse (end_ period) = Some e
        /\ s <= d <= e.
Proof.
  unfold isDateInPeriod, valueOf. split.
  - destruct (DateOfString parse date) as [d |],
      (DateOfString parse (start period)) as [s |],
      (DateOfString parse (end_ period)) as [e |];
      cbn [num_ge num_le num_test2 andb]; try discriminate;
      try (rewrite andb_false_r; discriminate).
    rewrite andb_true_iff, Z.leb_le, Z.geb_le. intros H.
    exists d, s, e. repeat split; lia.
  - intros (d & s & e & -> & -> & -> & H).
    cbn [num_ge num_le num_test2].
    rewrite andb_true_iff, Z.leb_le, Z.geb_le. lia.
Qed.

(** ** [getCountDaysOnPeriod], further *)

(** X12: For instants that are whole days apart the spans are integers and
    add up: with [b] at [i] days from [a] and [c] at [j] days from [b] (of
    either sign), the spans are [i + 1], [j + 1] and [i + j + 1], so that
    going from [a] to [c] through [b] counts [b] twice; the span from an
    instant to itself is 1. *)
Theorem getCountDaysOnPeriod_additive parse a b c ta tb tc i j :
  DateOfString parse a = Some ta ->
  DateOfString parse b = Some tb ->
  DateOfString parse c = Some tc ->
  tb - ta = i * msPerDay ->
  tc - tb = j * msPerDay ->
  exists qab qbc qac qaa,
    getCountDaysOnPeriod parse a b = Some qab
    /\ getCountDaysOnPeriod parse b c = Some qbc
    /\ getCountDaysOnPeriod parse a c = Some qac
    /\ getCountDaysOnPeriod parse a a = Some qaa
    /\ (qab == inject_Z (i + 1))%Q
    /\ (qbc == inject_Z (j + 1))%Q
    /\ (qac == inject_Z (i + j + 1))%Q
    /\ (qac + 1 == qab + qbc)%Q
    /\ (qaa == 1)%Q.
Proof.
  intros Ha Hb Hc Hi Hj. unfold getCountDaysOnPeriod, valueOf.
  rewrite Ha, Hb, Hc. do 4 eexists.
  repeat (split; [reflexivity|]).
  assert (Eab : (1 + inject_Z (tb - ta) / inject_Z (24 * 60 * 60 * 1000)
                 == inject_Z (i + 1))%Q) by (apply day_span_integer; lia).
  assert (Ebc : (1 + inject_Z (tc - tb) / inject_Z (24 * 60 * 60 * 1000)
                 == inject_Z (j + 1))%Q) by (apply day_span_integer; lia).
  assert (Eac : (1 + inject_Z (tc - ta) / inject_Z (24 * 60 * 60 * 1000)
                 == inject_Z (i + j + 1))%Q) by (apply day_span_integer; lia).
  assert (Eaa : (1 + inject_Z (ta - ta) / inject_Z (24 * 60 * 60 * 1000)
                 == inject_Z 1)%Q) by (apply day_span_integer; lia).
  split; [exact Eab | split; [exact Ebc | split; [exact Eac | split]]].
  - rewrite Eab, Ebc, Eac. change 1%Q with (inject_Z 1).
    rewrite <- !inject_Z_plus. apply inject_Z_injective. lia.
  - exact Eaa.
Qed.

(** X11: A date of the period is at most as many days from the start as the
    end. *)
Theorem isDateInPeriod_span parse date period :
  isDateInPeriod parse date period = true ->
  exists q1 q2,
    getCountDaysOnPeriod parse (start period) date = Some q1
    /\ getCountDaysOnPeriod parse (start period) (end_ period) = Some q2
    /\ (1 <= q1)%Q /\ (q1 <= q2)%Q.
Proof.
  intros H. apply isDateInPeriod_between in H.
  destruct H as (d & s & e & Hd & Hs & He & Hle).
  unfold getCountDaysOnPeriod, valueOf. rewrite Hd, Hs, He.
  do 2 eexists. repeat (split; [reflexivity|]).
  change (24 * 60 * 60 * 1000) with msPerDay.
  assert (Hpos : (0 < inject_Z msPerDay)%Q).
  { change 0%Q with (inject_Z 0). rewrite <- Zlt_Qlt. reflexivity. }
  split.
  - rewrite <- (Qplus_0_r 1) at 1. apply Qplus_le_r.
    apply Qle_shift_div_l; [exact Hpos|]. rewrite Qmult_0_l.
    change 0%Q with (inject_Z 0). rewrite <- Zle_Qle. lia.
  - apply Qplus_le_r. apply Qmult_le_compat_r.
    + rewrite <- Zle_Qle. lia.
    + apply Qlt_le_weak, Qinv_lt_0_compat, Hpos.
Qed.

Lemma february_length_and_isLeapYear_witness :
  zoneInRange 0 /\ calendarDate 15 6 2024 /\ 100 <= 2024 <= 275759
  /\ (getCountDaysInMonth 0 2 2024 = Some 29
      <-> isLeapYear 0 (DateYMD 0 (Some 2024) (Some (6 - 1)) (Some 15)) = true)
  /\ (getCountDaysInMonth 0 2 2024 = Some 28
      <-> isLeapYear 0 (DateYMD 0 (Some 2024) (Some (6 - 1)) (Some 15)) = false).
Proof.
  assert (Hz : zoneInRange 0) by (unfold zoneInRange, msPerDay; lia).
  assert (Hc : calendarDate 15 6 2024)
    by (split; [lia | vm_compute; split; discriminate]).
  assert (Hy : 100 <= 2024 <= 275759) by lia.
  split; [exact Hz | split; [exact Hc | split; [exact Hy |]]].
  exact (february_length_and_isLeapYear 0 15 6 2024 Hz Hc Hy).
Defined.


Lemma isDateInPeriod_endpoints_witness :
  DateOfString (Date_parse 0) "2024-02-02" = Some 1706832000000
  /\ DateOfString (Date_parse 0) "2024-03-02" = Some 1709337600000
  /\ (isDateInPeriod (Date_parse 0) "2024-02-02"
                     {| start := "2024-02-02"; end_ := "2024-03-02" |} = true
      <-> 1706832000000 <= 1709337600000)
  /\ (isDateInPeriod (Date_parse 0) "2024-03-02"
                     {| start := "2024-02-02"; end_ := "2024-03-02" |} = true
      <-> 1706832000000 <= 1709337600000)
  /\ (1709337600000 < 1706832000000 ->
      forall date,
        isDateInPeriod (Date_parse 0) date
                       {| start := "2024-02-02"; end_ := "2024-03-02" |}
        = false).
Proof.
  assert (Hs : DateOfString (Date_parse 0) "2024-02-02" = Some 1706832000000)
    by (vm_compute; reflexivity).
  assert (He : DateOfString (Date_parse 0) "2024-03-02" = Some 1709337600000)
    by (vm_compute; reflexivity).
  split; [exact Hs | split; [exact He |]].
  exact (isDateInPeriod_endpoints (Date_parse 0)
           {| start := "2024-02-02"; end_ := "2024-03-02" |} _ _ Hs He).
Defined.

Lemma getCountDaysOnPeriod_additive_witness :
  DateOfString (Date_parse 0) "2024-02-01" = Some 1706745600000
  /\ DateOfString (Date_parse 0) "2024-02-05" = Some 1707091200000
  /\ DateOfString (Date_parse 0) "2024-02-12" = Some 1707696000000
  /\ 1707091200000 - 1706745600000 = 4 * msPerDay
  /\ 1707696000000 - 1707091200000 = 7 * msPerDay
  /\ exists qab qbc qac qaa,
      getCountDaysOnPeriod (Date_parse 0) "2024-02-01" "2024-02-05" = Some qab
      /\ getCountDaysOnPeriod (Date_parse 0) "2024-02-05" "2024-02-12" = Some qbc
      /\ getCountDaysOnPeriod (Date_parse 0) "2024-02-01" "2024-02-12" = Some qac
      /\ getCountDaysOnPeriod (Date_parse 0) "2024-02-01" "2024-02-01" = Some qaa
      /\ (qab == inject_Z (4 + 1))%Q
      /\ (qbc == inject_Z (7 + 1))%Q
      /\ (qac == inject_Z (4 + 7 + 1))%Q
      /\ (qac + 1 == qab + qbc)%Q
      /\ (qaa == 1)%Q.
Proof.
  assert (Ha : DateOfString (Date_parse 0) "2024-02-01" = Some 1706745600000)
    by (vm_compute; reflexivity).
  assert (Hb : DateOfString (Date_parse 0) "2024-02-05" = Some 1707091200000)
    by (vm_compute; reflexivity).
  assert (Hc : DateOfString (Date_parse 0) "2024-02-12" = Some 1707696000000)
    by (vm_compute; reflexivity).
  assert (Hi : 1707091200000 - 1706745600000 = 4 * msPerDay)
    by (vm_compute; reflexivity).
  assert (Hj : 1707696000000 - 1707091200000 = 7 * msPerDay)
    by (vm_compute; reflexivity).
  split; [exact Ha | split; [exact Hb | split; [exact Hc | split; [exact Hi |
    split; [exact Hj |]]]]].
  exact (getCountDaysOnPeriod_additive (Date_parse 0) _ _ _ _ _ _ 4 7
           Ha Hb Hc Hi Hj).
Defined.

Lemma isDateInPeriod_span_witness :
  isDateInPeriod (Date_parse 0) "2024-02-10"
                 {| start := "2024-02-02"; end_ := "2024-03-02" |} = true
  /\ exists q1 q2,
      getCountDaysOnPeriod (Date_parse 0) "2024-02-02" "2024-02-10" = Some q1
      /\ getCountDaysOnPeriod (Date_parse 0) "2024-02-02" "2024-03-02" = Some q2
      /\ (1 <= q1)%Q /\ (q1 <= q2)%Q.
Proof.
  assert (H : isDateInPeriod (Date_parse 0) "2024-02-10"
                {| start := "2024-02-02"; end_ := "2024-03-02" |} = true)
    by (vm_compute; reflexivity).
  split; [exact H |].
  exact (isDateInPeriod_span (Date_parse 0) "2024-02-10"
           {| start := "2024-02-02"; end_ := "2024-03-02" |} H).
Defined.

(** ** [getCountWeekendsInMonth], further *)

Lemma weekendDaysInMonth_bounds month y :
  8 <= weekendDaysInMonth month y <= 10
  /\ (DaysInMonth y (month - 1) = 28 -> weekendDaysInMonth month y = 8).
Proof.
  unfold weekendDaysInMonth.
  pose proof (DaysInMonth_range y (month - 1)) as Hr.
  erewrite filter_ext
    by (intros dt; rewrite (MakeDay_date _ _ dt); reflexivity).
  rewrite weekend_filter_shift.
  pose proof (Z.mod_pos_bound (MakeDay y (month - 1) 1 + 4) 7 eq_refl) as Hw.
  generalize dependent ((MakeDay y (month - 1) 1 + 4) mod 7).
  generalize dependent (DaysInMonth y (month - 1)).
  intros n Hn w Hw.
  assert (Hn' : n = 28 \/ n = 29 \/ n = 30 \/ n = 31) by lia.
  assert (Hw' : w = 0 \/ w = 1 \/ w = 2 \/ w = 3 \/ w = 4 \/ w = 5 \/ w = 6)
    by lia.
  clear Hn Hw.
  repeat (destruct Hn' as [Hn' | Hn']); subst n;
    repeat (destruct Hw' as [Hw' | Hw']); subst w;
    (split; [vm_compute; split; discriminate |]);
    intros H; try discriminate H; vm_compute; reflexivity.
Qed.

(** X13: For a month 1..12 of a year of the Date range the count is 8, 9 or 10,
    and it is 8 for a month of 28 days. *)
Theorem getCountWeekendsInMonth_bounds tza month year :
  zoneInRange tza -> yearInRange year -> 1 <= month <= 12 ->
  exists n,
    getCountWeekendsInMonth tza month year = Some n
    /\ 8 <= n <= 10
    /\ (getCountDaysInMonth tza month year = Some 28 -> n = 8).
Proof.
  intros Hz Hy Hm.
  exists (weekendDaysInMonth month (fullYear year)).
  split; [apply getCountWeekendsInMonth_counts; assumption|].
  destruct (weekendDaysInMonth_bounds month (fullYear year)) as [Hb H28].
  split; [exact Hb|]. intros Hlen. apply H28.
  assert (H : getCountDaysInMonth tza month year
              = Some (DaysInMonth (fullYear year) (month - 1))).
  { unfold getCountDaysInMonth.
    destruct (Z.eqb_spec month 12) as [-> | Hne]; [reflexivity|].
    apply month_length_by_setDate; auto; lia. }
  rewrite H in Hlen. now injection Hlen.
Qed.

(** ** [formatDate], further *)

Lemma MinFromTime_whole_hours t k :
  MinFromTime (t + k * msPerHour) = MinFromTime t.
Proof.
  unfold MinFromTime, msPerHour, msPerMinute.
  replace (t + k * 3600000) with (t + (60 * k) * 60000) by lia.
  rewrite Z.div_add by lia.
  replace (t / 60000 + 60 * k) with (t / 60000 + k * 60) by lia.
  apply Z.mod_add. lia.
Qed.

Lemma SecFromTime_whole_hours t k :
  SecFromTime (t + k * msPerHour) = SecFromTime t.
Proof.
  unfold SecFromTime, msPerHour, msPerSecond.
  replace (t + k * 3600000) with (t + (3600 * k) * 1000) by lia.
  rewrite Z.div_add by lia.
  replace (t / 1000 + 3600 * k) with (t / 1000 + (60 * k) * 60) by lia.
  apply Z.mod_add. lia.
Qed.

(** X14: [formatDate] depends on the zone only through the instant that its
    text denotes and through the offset modulo one hour: in two zones whose
    offsets differ by a whole number of hours, texts that denote the same
    instant are printed alike.  So a text with a zone of its own (one ending
    in Z, say) is printed in a whole-hour zone as it is in UTC; a text that
    [Date.parse] reads as local time denotes another instant there. *)
Theorem formatDate_whole_hour_zone tza1 tza2 parse1 parse2 date1 date2 :
  (tza1 - tza2) mod msPerHour = 0 ->
  DateOfString parse1 date1 = DateOfString parse2 date2 ->
  formatDate tza1 parse1 date1 = formatDate tza2 parse2 date2.
Proof.
  intros Hz Hd. apply Z.mod_divide in Hz; [| discriminate].
  destruct Hz as [k Hk].
  assert (Ht : tza1 = tza2 + k * msPerHour) by lia. subst tza1.
  unfold formatDate. rewrite Hd.
  assert (Hmin : getMinutes (tza2 + k * msPerHour) (DateOfString parse2 date2)
                 = getMinutes tza2 (DateOfString parse2 date2)).
  { unfold getMinutes, local_field, LocalTime.
    destruct (DateOfString parse2 date2) as [t |]; [| reflexivity].
    cbn [option_map]. rewrite Z.add_assoc, MinFromTime_whole_hours.
    reflexivity. }
  assert (Hsec : getSeconds (tza2 + k * msPerHour) (DateOfString parse2 date2)
                 = getSeconds tza2 (DateOfString parse2 date2)).
  { unfold getSeconds, local_field, LocalTime.
    destruct (DateOfString parse2 date2) as [t |]; [| reflexivity].
    cbn [option_map]. rewrite Z.add_assoc, SecFromTime_whole_hours.
    reflexivity. }
  rewrite Hmin, Hsec. reflexivity.
Qed.

(** ** Invalid Dates *)

(** X15: [getNextFridayThe13th] never returns for an Invalid Date: the weekday of
    the Date stays NaN, which differs from 5 on every pass. *)
Theorem getNextFridayThe13th_invalid_date tza fuel :
  getNextFridayThe13th tza fuel NaN = None.
Proof.
  unfold getNextFridayThe13th. cbn.
  induction fuel as [| fuel IH]; [reflexivity | exact IH].
Qed.

(** X16: What the other functions answer for an Invalid Date, or for a text that
    is not parsed: NaN and [undefined] are passed on, [getQuarter] answers 4,
    [isLeapYear] and [isDateInPeriod] answer false, and the formatters print
    NaN fields. *)
Theorem invalid_date_results tza parse text :
  parse text = NaN ->
  getNextFriday tza NaN = NaN
  /\ getWeekNumberByDate tza NaN = NaN
  /\ getQuarter tza NaN = 4
  /\ isLeapYear tza NaN = false
  /\ Formatting.getTime tza NaN = "0NaN:0NaN:0NaN"
  /\ getDayName parse text = None
  /\ formatDate tza parse text = "NaN/NaN/NaN, NaN:NaN:NaN AM"
  /\ (forall other, getCountDaysOnPeriod parse text other = None
                    /\ getCountDaysOnPeriod parse other text = None)
  /\ (forall period, isDateInPeriod parse text period = false).
Proof.
  intros H.
  assert (Hd : DateOfString parse text = NaN)
    by (unfold DateOfString; rewrite H; reflexivity).
  repeat (split; [reflexivity |]).
  split; [unfold getDayName; rewrite Hd; reflexivity |].
  split; [unfold formatDate; rewrite Hd; reflexivity |].
  split.
  - intros other. unfold getCountDaysOnPeriod. rewrite Hd.
    split; [destruct (valueOf (DateOfString parse other)) |]; reflexivity.
  - intros period. unfold isDateInPeriod. rewrite Hd. reflexivity.
Qed.

(** ** [getWorkSchedule], further *)

Lemma period_time_missing_field tza text :
  (List.length (split "-" text) < 3)%nat -> period_time tza text = NaN.
Proof.
  intros H. unfold period_time, index.
  destruct (nth_error (split "-" text) 2) eqn:E.
  - assert (Hlt : (2 < List.length (split "-" text))%nat)
      by (apply nth_error_Some; rewrite E; discriminate).
    lia.
  - reflexivity.
Qed.

(** X17: When the start or the end text has fewer than three [-]-separated
    fields, the year is [undefined], the Date is invalid and the schedule is
    empty, whatever the counts. *)
Theorem getWorkSchedule_missing_field tza fuel period W O :
  (List.length (split "-" (start period)) < 3)%nat
  \/ (List.length (split "-" (end_ period)) < 3)%nat ->
  getWorkSchedule tza (S fuel) period W O = Some (Returned []).
Proof.
  intros [H | H]; apply (period_time_missing_field tza) in H;
    unfold getWorkSchedule; cbv zeta; rewrite H.
  - cbn [schedule_loop]. destruct (period_time tza (end_ period)); reflexivity.
  - reflexivity.
Qed.

Lemma getCountWeekendsInMonth_bounds_witness :
  zoneInRange 0 /\ yearInRange 2023 /\ 1 <= 2 <= 12
  /\ exists n,
      getCountWeekendsInMonth 0 2 2023 = Some n
      /\ 8 <= n <= 10
      /\ (getCountDaysInMonth 0 2 2023 = Some 28 -> n = 8).
Proof.
  assert (Hz : zoneInRange 0) by (unfold zoneInRange, msPerDay; lia).
  assert (Hy : yearInRange 2023) by (unfold yearInRange; lia).
  assert (Hm : 1 <= 2 <= 12) by lia.
  split; [exact Hz | split; [exact Hy | split; [exact Hm |]]].
  exact (getCountWeekendsInMonth_bounds 0 2 2023 Hz Hy Hm).
Defined.

Lemma formatDate_whole_hour_zone_witness :
  (7200000 - 0) mod msPerHour = 0
  /\ DateOfString (Date_parse 7200000) "2024-02-01T15:04:05.000Z"
     = DateOfString (Date_parse 0) "2024-02-01T15:04:05.000Z"
  /\ formatDate 7200000 (Date_parse 7200000) "2024-02-01T15:04:05.000Z"
     = formatDate 0 (Date_parse 0) "2024-02-01T15:04:05.000Z".
Proof.
  assert (H : (7200000 - 0) mod msPerHour = 0) by reflexivity.
  assert (Hd : DateOfString (Date_parse 7200000) "2024-02-01T15:04:05.000Z"
               = DateOfString (Date_parse 0) "2024-02-01T15:04:05.000Z")
    by (vm_compute; reflexivity).
  split; [exact H | split; [exact Hd |]].
  exact (formatDate_whole_hour_zone 7200000 0 (Date_parse 7200000)
           (Date_parse 0) _ _ H Hd).
Defined.

Lemma invalid_date_results_witness :
  Date_parse 0 "not a date" = NaN
  /\ getNextFriday 0 NaN = NaN
  /\ getWeekNumberByDate 0 NaN = NaN
  /\ getQuarter 0 NaN = 4
  /\ isLeapYear 0 NaN = false
  /\ Formatting.getTime 0 NaN = "0NaN:0NaN:0NaN"
  /\ getDayName (Date_parse 0) "not a date" = None
  /\ formatDate 0 (Date_parse 0) "not a date" = "NaN/NaN/NaN, NaN:NaN:NaN AM"
  /\ (forall other,
         getCountDaysOnPeriod (Date_parse 0) "not a date" other = None
         /\ getCountDaysOnPeriod (Date_parse 0) other "not a date" = None)
  /\ (forall period, isDateInPeriod (Date_parse 0) "not a date" period = false).
Proof.
  assert (H : Date_parse 0 "not a date" = NaN) by reflexivity.
  split; [exact H |].
  exact (invalid_date_results 0 (Date_parse 0) "not a date" H).
Defined.

Lemma getWorkSchedule_missing_field_witness :
  ((List.length (split "-" "2024/01/01") < 3)%nat
   \/ (List.length (split "-" "15-01-2024") < 3)%nat)
  /\ getWorkSchedule 0 1 {| start := "2024/01/01"; end_ := "15-01-2024" |} 1 3
     = Some (Returned []).
Proof.
  assert (H : (List.length (split "-" "2024/01/01") < 3)%nat
              \/ (List.length (split "-" "15-01-2024") < 3)%nat)
    by (left; vm_compute; repeat constructor).
  split; [exact H |].
  exact (getWorkSchedule_missing_field 0 0
           {| start := "2024/01/01"; end_ := "15-01-2024" |} 1 3 H).
Defined.

(** ** [getWeekNumberByDate], further *)

Lemma Qtrunc_integer (q : Q) (k : Z) : (q == inject_Z k)%Q -> Qtrunc q = k.
Proof.
  intros H. unfold Qtrunc. destruct (Qle_bool 0 q).
  - rewrite (Qfloor_comp _ _ H). apply Qfloor_Z.
  - rewrite (Qceiling_comp _ _ H). apply Qceiling_Z.
Qed.

(** The converse of [js_rem_zero]. *)
Lemma js_rem_whole_weeks (delta fd : Z) :
  (delta + (fd - 7) * msPerDay) mod (7 * msPerDay) = 0 ->
  Qeq_bool (js_rem (1 + inject_Z delta / inject_Z (1000 * 60 * 60 * 24)
                    - inject_Z (7 - fd + 1)) 7) 0 = true.
Proof.
  intros H. apply Qeq_bool_iff.
  apply Z.mod_divide in H; [| discriminate]. destruct H as [k Hk].
  assert (HM : ~ (inject_Z msPerDay == 0)%Q).
  { change 0%Q with (inject_Z 0). rewrite inject_Z_injective. discriminate. }
  assert (Hr : (1 + inject_Z delta / inject_Z (1000 * 60 * 60 * 24)
                - inject_Z (7 - fd + 1) == 7 * inject_Z k)%Q).
  { rewrite remainDay_fraction, Hk, !inject_Z_mult.
    change (inject_Z 7) with 7%Q.
    generalize dependent (inject_Z msPerDay). generalize (inject_Z k).
    intros x m Hm. field. exact Hm. }
  unfold js_rem.
  rewrite (Qtrunc_integer _ k).
  - rewrite Hr. ring.
  - rewrite Hr. field.
Qed.

(** The week number in integer terms, for the first weekday [fd] (1..7) of
    the year and [delta] milliseconds since the start of the year. *)
Lemma week_count_integer (delta fd : Z) :
  (if negb (Qeq_bool
              (js_rem (1 + inject_Z delta / inject_Z (1000 * 60 * 60 * 24)
                       - inject_Z (7 - fd + 1)) 7) 0)
   then (if fd <=? 4 then 0 + 1 else 0)
        + Qfloor ((1 + inject_Z delta / inject_Z (1000 * 60 * 60 * 24)
                   - inject_Z (7 - fd + 1)) / 7) + 1
   else (if fd <=? 4 then 0 + 1 else 0)
        + Qfloor ((1 + inject_Z delta / inject_Z (1000 * 60 * 60 * 24)
                   - inject_Z (7 - fd + 1)) / 7))
  = (if fd <=? 4 then 1 else 0)
    + (delta + (fd - 7) * msPerDay) / (7 * msPerDay)
    + (if (delta + (fd - 7) * msPerDay) mod (7 * msPerDay) =? 0 then 0 else 1).
Proof.
  rewrite fullWeekend_quotient.
  destruct (Qeq_bool _ 0) eqn:E; cbn [negb].
  - apply js_rem_zero in E. rewrite E. cbn [Z.eqb].
    destruct (fd <=? 4); lia.
  - destruct (Z.eqb_spec ((delta + (fd - 7) * msPerDay) mod (7 * msPerDay)) 0)
      as [Hz | Hz].
    + apply js_rem_whole_weeks in Hz. congruence.
    + destruct (fd <=? 4); lia.
Qed.

Lemma week_arith (i fd tod : Z) :
  0 <= tod < msPerDay -> 1 <= fd <= 7 -> 0 <= i ->
  (if fd <=? 4 then 1 else 0)
  + (i * msPerDay + tod + (fd - 7) * msPerDay) / (7 * msPerDay)
  + (if (i * msPerDay + tod + (fd - 7) * msPerDay) mod (7 * msPerDay) =? 0
     then 0 else 1)
  = (i + fd - 1 + (if tod =? 0 then 0 else 1)) / 7
    + (if fd <=? 4 then 1 else 0).
Proof.
  intros Htod Hfd' Hi. unfold msPerDay in *.
  destruct (Z.eqb_spec tod 0) as [-> | Hne].
  - destruct (Z.eqb_spec ((i * 86400000 + 0 + (fd - 7) * 86400000)
                          mod (7 * 86400000)) 0);
      destruct (fd <=? 4); Z.div_mod_to_equations; lia.
  - destruct (Z.eqb_spec ((i * 86400000 + tod + (fd - 7) * 86400000)
                          mod (7 * 86400000)) 0);
      destruct (fd <=? 4); Z.div_mod_to_equations; lia.
Qed.

(** The result for the instant [tod] milliseconds after local midnight of a
    calendar date, by [i], the days since 1 January, and [fd], the weekday of
    1 January counted from Monday = 1. *)
Lemma getWeekNumberByDate_of_day tza d m y tod :
  zoneInRange tza -> calendarDate d m y -> 100 <= y <= 275759 ->
  0 <= tod < msPerDay ->
  let i := MakeDay y (m - 1) d - DayFromYear y in
  let fd := (DayFromYear y + 3) mod 7 + 1 in
  getWeekNumberByDate tza
    (num_add (DateYMD tza (Some y) (Some (m - 1)) (Some d)) (Some tod))
  = Some ((i + fd - 1 + (if tod =? 0 then 0 else 1)) / 7
          + (if fd <=? 4 then 1 else 0)).
Proof.
  intros Hz Hc Hy Htod i fd.
  destruct (DateYMD_calendarDate tza d m y Hz Hc Hy) as (Hv & Hr & _).
  assert (Hyr : yearInRange y) by (unfold yearInRange; lia).
  rewrite Hv. cbn [num_add num_lift2].
  set (D := MakeDay y (m - 1) d) in *.
  assert (Hin : DayFromYear y <= D < DayFromYear (y + 1)).
  { destruct Hc as [Hm Hd]. apply MakeDay_in_year; [lia | exact Hd]. }
  remember (MakeDate D 0 - tza + tod) as dv eqn:Hdv.
  assert (Hlocal : LocalTime tza dv = MakeDate D tod).
  { rewrite Hdv. unfold LocalTime, MakeDate. lia. }
  assert (Hyear : YearFromTime (LocalTime tza dv) = y).
  { rewrite Hlocal. unfold YearFromTime. rewrite Day_MakeDate by exact Htod.
    apply YearFromDay_unique. exact Hin. }
  assert (Hgy : getFullYear tza (Some dv) = Some y)
    by (unfold getFullYear, local_field, option_map; rewrite Hyear;
        reflexivity).
  unfold getWeekNumberByDate. rewrite Hgy.
  unfold DateYM.
  rewrite (DateYMD_value tza y 0 1 Hz Hyr) by (unfold DaysInMonth; lia).
  rewrite (fullYear_id y) by lia.
  replace (MakeDay y 0 1) with (DayFromYear y)
    by (rewrite MakeDay_month by lia; cbn [DaysBeforeMonth]; lia).
  rewrite getDay_value, WeekDay_MakeDate.
  pose proof (Z.mod_pos_bound (DayFromYear y + 4) 7 eq_refl) as Hw.
  set (w := (DayFromYear y + 4) mod 7) in *.
  assert (Hfd : (if w =? 0 then 7 else w) = fd).
  { unfold fd, w. destruct (Z.eqb_spec ((DayFromYear y + 4) mod 7) 0);
      Z.div_mod_to_equations; lia. }
  replace (if num_seq (Some w) (Some 0) then Some 7 else Some w)
    with (Some fd)
    by (rewrite <- Hfd; unfold num_seq, num_test2; destruct (w =? 0);
        reflexivity).
  assert (Hfd' : 1 <= fd <= 7) by (unfold fd; Z.div_mod_to_equations; lia).
  assert (Hdelta : dv - (MakeDate (DayFromYear y) 0 - tza) = i * msPerDay + tod).
  { rewrite Hdv. unfold i, MakeDate. lia. }
  assert (Hi : 0 <= i) by (unfold i; lia).
  assert (Hex : exists n,
             match valueOf (Some dv),
                   valueOf (Some (MakeDate (DayFromYear y) 0 - tza)),
                   Some fd with
             | Some dv0, Some jv, Some fd0 =>
                 Some
                   (let countDays :=
                      (1 + inject_Z (dv0 - jv)
                           / inject_Z (1000 * 60 * 60 * 24))%Q in
                    let count := 0 in
                    let count0 := if fd0 <=? 4 then count + 1 else count in
                    let remainDay :=
                      (countDays - inject_Z (7 - fd0 + 1))%Q in
                    let fullWeekend := Qfloor (remainDay / 7) in
                    let count1 := count0 + fullWeekend in
                    if negb (Qeq_bool (js_rem remainDay 7) 0)
                    then count1 + 1 else count1)
             | _, _, _ => NaN
             end = Some n
             /\ n = (i + fd - 1 + (if tod =? 0 then 0 else 1)) / 7
                    + (if fd <=? 4 then 1 else 0)).
  { eexists. split; [reflexivity|].
    rewrite week_count_integer, Hdelta.
    apply week_arith; assumption. }
  destruct Hex as (n & Hn & ->). exact Hn.
Qed.



Lemma getWeekNumberByDate_range_witness :
  zoneInRange 0
  /\ yearInRange (YearFromTime (LocalTime 0 1704240000000))
  /\ ~ 0 <= YearFromTime (LocalTime 0 1704240000000) <= 99
  /\ exists n,
      getWeekNumberByDate 0 (Some 1704240000000) = Some n /\ 0 <= n <= 53.
Proof.
  assert (Hz : zoneInRange 0) by (unfold zoneInRange, msPerDay; lia).
  assert (Hy : yearInRange (YearFromTime (LocalTime 0 1704240000000)))
    by (vm_compute; split; discriminate).
  assert (Hn : ~ 0 <= YearFromTime (LocalTime 0 1704240000000) <= 99)
    by (vm_compute; intros [_ H]; apply H; reflexivity).
  split; [exact Hz | split; [exact Hy | split; [exact Hn |]]].
  exact (getWeekNumberByDate_range 0 1704240000000 Hz Hy Hn).
Defined.



(** ** [getNextFridayThe13th], further *)

Lemma leapFlag_cases y : leapFlag y = 0 \/ leapFlag y = 1.
Proof. unfold leapFlag. destruct (DaysInYear y =? 366); auto. Qed.

Lemma DayFromYear_succ_flag y : DayFromYear (y + 1) = DayFromYear y + 365 + leapFlag y.
Proof.
  rewrite DayFromYear_succ. unfold leapFlag.
  destruct (DaysInYear_cases y) as [E | E]; rewrite E; cbn; lia.
Qed.

(** The 13th [j] months after the 13th of month [mn] (0..11) of year [y]. *)
Lemma thirteenth_offset_correct y mn j :
  0 <= mn <= 11 -> 0 <= j <= 13 ->
  MakeDay y (mn + j) 13
  = MakeDay y mn 13 + thirteenth_offset (leapFlag y) (leapFlag (y + 1)) mn j.
Proof.
  intros Hm Hj. rewrite (MakeDay_carry y (mn + j)).
  unfold thirteenth_offset.
  destruct (Z.ltb_spec (mn + j) 12); [| destruct (Z.ltb_spec (mn + j) 24)].
  - replace ((mn + j) / 12) with 0 by (Z.div_mod_to_equations; lia).
    replace ((mn + j) mod 12) with (mn + j) by (Z.div_mod_to_equations; lia).
    rewrite Z.add_0_r, !MakeDay_month by lia. fold (leapFlag y). lia.
  - replace ((mn + j) / 12) with 1 by (Z.div_mod_to_equations; lia).
    replace ((mn + j) mod 12) with (mn + j - 12)
      by (Z.div_mod_to_equations; lia).
    rewrite !MakeDay_month by lia. fold (leapFlag y) (leapFlag (y + 1)).
    rewrite DayFromYear_succ_flag. lia.
  - replace ((mn + j) / 12) with 2 by (Z.div_mod_to_equations; lia).
    replace ((mn + j) mod 12) with 0 by (Z.div_mod_to_equations; lia).
    rewrite !MakeDay_month by lia. fold (leapFlag y).
    replace (y + 2) with (y + 1 + 1) by lia.
    rewrite !DayFromYear_succ_flag. cbn [DaysBeforeMonth]. lia.
Qed.

(** Whatever the weekday [w] of a 13th, one of the fourteen 13ths from it on
    is a Friday. *)
Lemma friday_among_fourteen l0 l1 mn w :
  (l0 = 0 \/ l0 = 1) -> (l1 = 0 \/ l1 = 1) -> 0 <= mn <= 11 -> 0 <= w < 7 ->
  exists j, 0 <= j <= 13 /\ (w + thirteenth_offset l0 l1 mn j) mod 7 = 5.
Proof.
  intros H0 H1 Hm Hw.
  pose (found := fun a b m v =>
          existsb (fun j => (v + thirteenth_offset a b m j) mod 7 =? 5)
                  (zrange 0 14)).
  assert (H : found l0 l1 mn w = true).
  { assert (Hall : forallb (fun a => forallb (fun b => forallb (fun m =>
                     forallb (fun v => found a b m v) (zrange 0 7))
                     (zrange 0 12)) (zrange 0 2)) (zrange 0 2) = true)
      by (vm_compute; reflexivity).
    pose proof (zrange_forallb _ 0 2 Hall l0 ltac:(lia)) as Ha.
    pose proof (zrange_forallb _ 0 2 Ha l1 ltac:(lia)) as Hb.
    pose proof (zrange_forallb _ 0 12 Hb mn ltac:(lia)) as Hc.
    exact (zrange_forallb _ 0 7 Hc w ltac:(lia)). }
  unfold found in H. apply existsb_exists in H.
  destruct H as (j & Hin & Hj). apply zrange_In in Hin.
  exists j. split; [lia | now apply Z.eqb_eq].
Qed.

(** The least index of a bounded search. *)
Lemma least_index (f : Z -> bool) (n : nat) :
  forall j, 0 <= j < Z.of_nat n -> f j = true ->
  exists j0, 0 <= j0 <= j /\ f j0 = true
             /\ forall k, 0 <= k < j0 -> f k = false.
Proof.
  induction n as [| n IH]; intros j Hj Hf; [lia|].
  destruct (Z.eq_dec j (Z.of_nat n)) as [-> | Hne].
  - destruct (existsb f (zrange 0 n)) eqn:E.
    + apply existsb_exists in E. destruct E as (k & Hin & Hk).
      apply zrange_In in Hin.
      destruct (IH k ltac:(lia) Hk) as (j0 & Hj0 & Hf0 & Hmin).
      exists j0. repeat split; try assumption; lia.
    + exists (Z.of_nat n). repeat split; try assumption; try lia.
      intros k Hk. destruct (f k) eqn:Ek; [| reflexivity].
      assert (existsb f (zrange 0 n) = true); [| congruence].
      apply existsb_exists. exists k. split; [| exact Ek].
      apply zrange_In. lia.
  - apply IH; [lia | exact Hf].
Qed.

Lemma days_in_range_years y c D :
  -271820 <= y -> 0 <= c -> y + c <= 275759 ->
  DayFromYear y - 1 <= D < DayFromYear (y + c + 1) ->
  -99999745 <= D <= 99999744.
Proof.
  intros Hy Hc Hyc HD.
  pose proof (DayFromYear_mono (-271820) y ltac:(lia)) as Hlo.
  pose proof (DayFromYear_mono (y + c + 1) 275760 ltac:(lia)) as Hhi.
  change (DayFromYear (-271820)) with (-99999744) in Hlo.
  change (DayFromYear 275760) with 99999744 in Hhi.
  lia.
Qed.

(** The Date at time of day [tod] of the 13th, [k] months after month [mn]
    of year [y]: its time value and its local fields. *)
Lemma thirteenth_fields tza y mn k tod :
  zoneInRange tza -> -271820 <= y <= 275757 -> 0 <= mn <= 11 ->
  0 <= k <= 14 -> 0 <= tod < msPerDay ->
  let t := MakeDate (MakeDay y (mn + k) 13) tod in
  TimeClip (UTC tza t) = Some (t - tza)
  /\ YearFromTime t = y + (mn + k) / 12
  /\ MonthFromTime t = (mn + k) mod 12
  /\ DateFromTime t = 13
  /\ TimeWithinDay t = tod
  /\ WeekDay t = WeekDay (MakeDate (MakeDay y (mn + k) 13) 0).
Proof.
  intros Hz Hy Hm Hk Htod t. subst t.
  rewrite (MakeDay_carry y (mn + k)).
  set (yk := y + (mn + k) / 12). set (rk := (mn + k) mod 12).
  assert (Hrk : 0 <= rk <= 11) by (unfold rk; Z.div_mod_to_equations; lia).
  assert (Hyk : yearInRange yk).
  { unfold yearInRange, yk. Z.div_mod_to_equations. lia. }
  pose proof (DaysInMonth_range yk rk) as Hlen.
  pose proof (MakeDay_in_year yk rk 13 Hrk ltac:(lia)) as Hin.
  destruct (fields_of_MakeDay yk rk 13 (MakeDate (MakeDay yk rk 13) tod)
              Hrk ltac:(lia) (Day_MakeDate _ _ Htod)) as (H1 & H2 & H3).
  split; [| repeat split; try assumption].
  - apply local_time_value; [assumption | | assumption].
    apply (year_days_in_range yk); [exact Hyk | lia].
  - apply TimeWithinDay_MakeDate. exact Htod.
  - unfold WeekDay.
    rewrite !Day_MakeDate by (try assumption; unfold msPerDay; lia).
    reflexivity.
Qed.

Lemma next_month_carry y mn k :
  0 <= mn -> 0 <= k ->
  MakeDay (y + (mn + k) / 12) ((mn + k) mod 12 + 1) 13
  = MakeDay y (mn + k + 1) 13.
Proof.
  intros Hm Hk.
  rewrite (MakeDay_carry _ ((mn + k) mod 12 + 1)).
  rewrite (MakeDay_carry y (mn + k + 1)).
  f_equal; Z.div_mod_to_equations; lia.
Qed.

(** The search loop from the 13th [k] months after the start: when the next
    Friday is [n] months away, [n] passes reach it. *)
Lemma friday13_loop_reaches tza y mn tod (n : nat) :
  zoneInRange tza -> -271820 <= y <= 275757 -> 0 <= mn <= 11 ->
  0 <= tod < msPerDay ->
  forall k,
    0 <= k -> k + Z.of_nat n <= 13 ->
    (forall i, k <= i < k + Z.of_nat n ->
               WeekDay (MakeDate (MakeDay y (mn + i) 13) 0) <> 5) ->
    WeekDay (MakeDate (MakeDay y (mn + (k + Z.of_nat n)) 13) 0) = 5 ->
    forall fuel, (n < fuel)%nat ->
      friday13_loop tza fuel
        (Some (MakeDate (MakeDay y (mn + k) 13) tod - tza))
      = Some (Some (MakeDate (MakeDay y (mn + (k + Z.of_nat n)) 13) tod - tza)).
Proof.
  intros Hz Hy Hm Htod.
  induction n as [| n IH]; intros k Hk Hkn Hnot Hfri [| fuel] Hf; try lia.
  - destruct (thirteenth_fields tza y mn k tod Hz Hy Hm ltac:(lia) Htod)
      as (_ & _ & _ & _ & _ & Hwd).
    cbn [friday13_loop]. unfold getDay, local_field, option_map.
    rewrite LocalTime_UTC, Hwd.
    replace (k + Z.of_nat 0) with k in * by lia. rewrite Hfri.
    cbn [num_seq num_test2 Z.eqb Pos.eqb negb]. reflexivity.
  - destruct (thirteenth_fields tza y mn k tod Hz Hy Hm ltac:(lia) Htod)
      as (_ & Hyr & Hmo & Hdt & Htw & Hwd).
    destruct (thirteenth_fields tza y mn (k + 1) tod Hz Hy Hm ltac:(lia) Htod)
      as (Hclip & _).
    cbn [friday13_loop]. unfold getDay, getMonth, local_field, option_map.
    rewrite LocalTime_UTC, Hwd. cbn [num_seq num_test2].
    rewrite (proj2 (Z.eqb_neq _ _) (Hnot k ltac:(lia))). cbn [negb].
    cbn [num_add num_lift2]. unfold setMonth.
    rewrite LocalTime_UTC, Hyr, Hmo, Hdt, Htw.
    rewrite next_month_carry by lia.
    replace (mn + k + 1) with (mn + (k + 1)) by lia. rewrite Hclip.
    replace (k + Z.of_nat (S n)) with (k + 1 + Z.of_nat n) in * by lia.
    apply IH; try lia. intros i Hi. apply Hnot. lia.
Qed.

(** The search from a valid Date [s] whose month is the first candidate. *)
Lemma friday13_search tza s :
  zoneInRange tza ->
  -271820 <= YearFromTime (LocalTime tza s) <= 275757 ->
  exists j,
    0 <= j <= 13
    /\ (forall fuel, (14 <= fuel)%nat ->
          friday13_loop tza fuel (setDate tza (Some s) (Some 13))
          = Some (Some (MakeDate
                          (MakeDay (YearFromTime (LocalTime tza s))
                                   (MonthFromTime (LocalTime tza s) + j) 13)
                          (TimeWithinDay (LocalTime tza s)) - tza)))
    /\ WeekDay (MakeDate (MakeDay (YearFromTime (LocalTime tza s))
                                  (MonthFromTime (LocalTime tza s) + j) 13) 0)
       = 5
    /\ (forall k, 0 <= k < j ->
                  WeekDay (MakeDate (MakeDay (YearFromTime (LocalTime tza s))
                                             (MonthFromTime (LocalTime tza s) + k)
                                             13) 0) <> 5).
Proof.
  intros Hz Hy.
  set (y := YearFromTime (LocalTime tza s)) in *.
  pose proof (MonthFromTime_range (LocalTime tza s)) as Hm.
  set (mn := MonthFromTime (LocalTime tza s)) in *.
  pose proof (TimeWithinDay_range (LocalTime tza s)) as Htod.
  set (tod := TimeWithinDay (LocalTime tza s)) in *.
  set (f := fun j => WeekDay (MakeDate (MakeDay y (mn + j) 13) 0) =? 5).
  assert (Hex : exists j, 0 <= j <= 13 /\ f j = true).
  { pose proof (WeekDay_range (MakeDate (MakeDay y mn 13) 0)) as Hw.
    destruct (friday_among_fourteen (leapFlag y) (leapFlag (y + 1)) mn _
                (leapFlag_cases y) (leapFlag_cases (y + 1)) Hm Hw)
      as (j & Hj & Hfri).
    exists j. split; [exact Hj|]. unfold f. apply Z.eqb_eq.
    rewrite thirteenth_offset_correct by lia.
    rewrite WeekDay_MakeDate in *.
    rewrite <- Hfri. rewrite Z.add_mod_idemp_l by lia. f_equal. lia. }
  destruct Hex as (j & Hj & Hfj).
  destruct (least_index f 14 j ltac:(lia) Hfj) as (j0 & Hj0 & Hf0 & Hmin).
  exists j0. split; [lia|]. split; [| split].
  - intros fuel Hfuel.
    assert (Hset : setDate tza (Some s) (Some 13)
                   = Some (MakeDate (MakeDay y (mn + 0) 13) tod - tza)).
    { unfold setDate. fold y mn tod. rewrite Z.add_0_r.
      destruct (thirteenth_fields tza y mn 0 tod Hz Hy Hm ltac:(lia) Htod)
        as (Hclip & _).
      rewrite Z.add_0_r in Hclip. exact Hclip. }
    rewrite Hset.
    rewrite (friday13_loop_reaches tza y mn tod (Z.to_nat j0) Hz Hy Hm Htod 0);
      try lia.
    + rewrite Z2Nat.id by lia. reflexivity.
    + intros i Hi. apply Z.eqb_neq. apply (Hmin i). lia.
    + rewrite Z2Nat.id by lia. apply Z.eqb_eq. exact Hf0.
  - apply Z.eqb_eq. exact Hf0.
  - intros k Hk. apply Z.eqb_neq. apply (Hmin k Hk).
Qed.

Lemma DateFromTime_range t : 1 <= DateFromTime t <= 31.
Proof.
  pose proof (YearFromDay_bounds (Day t)) as Hb.
  rewrite DayFromYear_succ in Hb. fold (YearFromTime t) in Hb.
  assert (Hd : 0 <= DayWithinYear t < 365 + InLeapYear t).
  { unfold DayWithinYear, InLeapYear.
    destruct (DaysInYear_cases (YearFromTime t)) as [E | E]; rewrite E in *;
      cbn; lia. }
  assert (Hl : InLeapYear t = 0 \/ InLeapYear t = 1).
  { unfold InLeapYear. destruct (_ =? 366); auto. }
  unfold DateFromTime, MonthFromTime.
  generalize dependent (DayWithinYear t). generalize dependent (InLeapYear t).
  clear. intros l Hl d Hd.
  repeat match goal with
         | |- context [?a <? ?b] => destruct (Z.ltb_spec a b)
         end; cbv beta iota; lia.
Qed.





